(** * Demo Day evaluation tool: the Express server (server/app.js)

    A shallow embedding of the route handlers of the evaluation server and
    the proofs of its specification's properties.  The routes embedded are
    those on sessions, juries, students, evaluations and results; the login,
    logout and checkSession routes only set or read [req.session.user], which
    a request carries here.

    Modelling conventions.
    - Strings are [String.string]; a field of [req.body] is an optional
      string ([None] is JavaScript's [undefined]: the property is absent).
    - Scores are JavaScript Numbers, that is IEEE 754 binary64 values: the
      kernel's primitive floats, with their addition and division.  The
      [count] of an aggregate, which the code starts at 0 and increments by 1,
      is a [nat], turned into a Number where the code divides by it.
    - [parseFloat] and [uuidv4] belong to the platform, not to the server:
      [parseFloat] is a parameter of the development and the identifier drawn
      by [uuidv4()] is an input of the creation route.
    - The in-memory document [dbData] and the file [db.json] are the two
      components of the state; the file is represented by the document last
      written to it (its JSON text is not modelled), and [saveDatabase] is
      taken to succeed.  A handler maps a request and a state to a response
      and a state. *)

From Stdlib Require Import List String Ascii Bool Arith Lia ZArith.
From Stdlib Require Import PrimFloat Uint63.
From Stdlib Require Import SpecFloat FloatOps FloatAxioms.
Import ListNotations.

Local Open Scope string_scope.
Local Open Scope list_scope.

(** ** Data model *)

Module Session.
Record t := mk {
  id : string;
  name : string;
  campus : string;
  juries : list string;
  students : list string
}.
End Session.

(** The eighteen criteria of the evaluation form, in the order of the source. *)
Module Scores.
Record t := mk {
  introductionTeam : float;
  projectInspiration : float;
  technologyArchitecture : float;
  algorithmsCode : float;
  processCollaboration : float;
  challengesFaced : float;
  technicalLearnings : float;
  audibles : float;
  clarity : float;
  fewFillerWords : float;
  stagePosition : float;
  confidentPosture : float;
  professionalAttire : float;
  timeManagement : float;
  energy : float;
  audienceInteraction : float;
  projectFunctionality : float;
  questionsAnswers : float
}.
End Scores.

Inductive criterion :=
| IntroductionTeam | ProjectInspiration | TechnologyArchitecture
| AlgorithmsCode | ProcessCollaboration | ChallengesFaced
| TechnicalLearnings | Audibles | Clarity | FewFillerWords
| StagePosition | ConfidentPosture | ProfessionalAttire
| TimeManagement | Energy | AudienceInteraction
| ProjectFunctionality | QuestionsAnswers.

Definition criteria : list criterion :=
  [IntroductionTeam; ProjectInspiration; TechnologyArchitecture;
   AlgorithmsCode; ProcessCollaboration; ChallengesFaced;
   TechnicalLearnings; Audibles; Clarity; FewFillerWords;
   StagePosition; ConfidentPosture; ProfessionalAttire;
   TimeManagement; Energy; AudienceInteraction;
   ProjectFunctionality; QuestionsAnswers].

(** The property of a score object that a criterion names. *)
Definition score (c : criterion) (x : Scores.t) : float :=
  match c with
  | IntroductionTeam => Scores.introductionTeam x
  | ProjectInspiration => Scores.projectInspiration x
  | TechnologyArchitecture => Scores.technologyArchitecture x
  | AlgorithmsCode => Scores.algorithmsCode x
  | ProcessCollaboration => Scores.processCollaboration x
  | ChallengesFaced => Scores.challengesFaced x
  | TechnicalLearnings => Scores.technicalLearnings x
  | Audibles => Scores.audibles x
  | Clarity => Scores.clarity x
  | FewFillerWords => Scores.fewFillerWords x
  | StagePosition => Scores.stagePosition x
  | ConfidentPosture => Scores.confidentPosture x
  | ProfessionalAttire => Scores.professionalAttire x
  | TimeManagement => Scores.timeManagement x
  | Energy => Scores.energy x
  | AudienceInteraction => Scores.audienceInteraction x
  | ProjectFunctionality => Scores.projectFunctionality x
  | QuestionsAnswers => Scores.questionsAnswers x
  end.

(** The name of the body field and submission property of a criterion. *)
Definition criterionName (c : criterion) : string :=
  match c with
  | IntroductionTeam => "introductionTeam"
  | ProjectInspiration => "projectInspiration"
  | TechnologyArchitecture => "technologyArchitecture"
  | AlgorithmsCode => "algorithmsCode"
  | ProcessCollaboration => "processCollaboration"
  | ChallengesFaced => "challengesFaced"
  | TechnicalLearnings => "technicalLearnings"
  | Audibles => "audibles"
  | Clarity => "clarity"
  | FewFillerWords => "fewFillerWords"
  | StagePosition => "stagePosition"
  | ConfidentPosture => "confidentPosture"
  | ProfessionalAttire => "professionalAttire"
  | TimeManagement => "timeManagement"
  | Energy => "energy"
  | AudienceInteraction => "audienceInteraction"
  | ProjectFunctionality => "projectFunctionality"
  | QuestionsAnswers => "questionsAnswers"
  end.

(** A submission: its three references, the eighteen scores (flat properties
    of the object in the source, grouped here) and the comments. *)
Module Submission.
Record t := mk {
  sessionId : string;
  juryName : string;
  studentName : string;
  scores : Scores.t;
  studentComments : string
}.
End Submission.

(** An entry of [aggregates]: the running sums and the count. *)
Module Agg.
Record t := mk {
  sessionId : string;
  studentName : string;
  sums : Scores.t;
  count : nat
}.
End Agg.

(** An entry of [aggregated]: field [c] of [avgs] is the property [cAvg]. *)
Module Row.
Record t := mk {
  sessionId : string;
  studentName : string;
  avgs : Scores.t
}.
End Row.

(** ** The database: [dbData] in memory and [db.json] on disk *)

Record DB := mkDB {
  sessions : list Session.t;
  submissions : list Submission.t
}.

Record World := mkWorld {
  dbData : DB;
  file : option DB
}.

(** [saveDatabase]: the whole document overwrites the file. *)
Definition saveDatabase (w : World) : World :=
  {| dbData := dbData w; file := Some (dbData w) |}.

(** The state once the document [db] is in memory and saved. *)
Definition saved (db : DB) : World :=
  {| dbData := db; file := Some db |}.

(** [loadDatabase]: read the file when it exists, create it otherwise. *)
Definition loadDatabase (w : World) : World :=
  match file w with
  | Some data => {| dbData := data; file := file w |}
  | None => saveDatabase w
  end.

(** ** Requests and responses *)

Record User := mkUser {
  username : string;
  user_campus : string
}.

Definition Body := list (string * string).

(** [req.body.k]: [None] when the body has no property [k]. *)
Fixpoint field (k : string) (b : Body) : option string :=
  match b with
  | [] => None
  | (k', v) :: b' => if k' =? k then Some v else field k b'
  end.

Record Request := mkRequest {
  session_user : option User;
  params_id : string;
  body : Body
}.

(** JavaScript truthiness of an optional string: [undefined] and the empty
    string are falsy. *)
Definition truthy (v : option string) : bool :=
  match v with
  | Some s => negb (s =? "")
  | None => false
  end.

(** The string held by a field that passed the truthiness test. *)
Definition value (v : option string) : string :=
  match v with
  | Some s => s
  | None => ""
  end.

Inductive Json :=
| JError (error : string)
| JSessions (l : list Session.t)
| JMessage (message : string)
| JMessageSession (message : string) (session : Session.t)
| JResults (rawSubmissions : list Submission.t) (aggregated : list Row.t)
    (campusSessions : list Session.t).

Record Response := mkResponse {
  status : nat;
  json : Json
}.

Definition Handler := Request -> World -> Response * World.

(** [res.status(code).json({ error })], the state untouched. *)
Definition fail (code : nat) (error : string) (w : World) : Response * World :=
  ({| status := code; json := JError error |}, w).

(** ** Authentication middleware *)

Definition isAuthenticated (next : User -> Handler) : Handler :=
  fun req w =>
    match session_user req with
    | Some user => next user req w
    | None => fail 401 "Unauthorized" w
    end.

(** ** Array helpers *)

(** [l.includes(v)] on an array of strings; [undefined] is in none. *)
Definition includes (l : list string) (v : option string) : bool :=
  match v with
  | Some x => existsb (fun y => y =? x) l
  | None => false
  end.

(** [sessions.find((s) => s.id === sessionId)]. *)
Definition findSession (sessionId : option string) (l : list Session.t)
  : option Session.t :=
  match sessionId with
  | Some sid => find (fun s => Session.id s =? sid) l
  | None => None
  end.

(** [sessions.findIndex((s) => s.id === sessionId)]; [None] stands for -1. *)
Fixpoint findIndex (sid : string) (l : list Session.t) : option nat :=
  match l with
  | [] => None
  | s :: l' =>
      if Session.id s =? sid then Some 0
      else option_map S (findIndex sid l')
  end.

(** [l.splice(i, 1)]. *)
Definition splice1 {A} (i : nat) (l : list A) : list A :=
  firstn i l ++ skipn (S i) l.

(** The object [sessionFound] is the first session of the array with the
    given id, and the handlers mutate it in place: [f] is applied there. *)
Fixpoint mutateFound (sid : string) (f : Session.t -> Session.t)
    (l : list Session.t) : list Session.t :=
  match l with
  | [] => []
  | s :: l' =>
      if Session.id s =? sid then f s :: l'
      else s :: mutateFound sid f l'
  end.

Definition setSessions (l : list Session.t) (w : World) : World :=
  {| dbData := {| sessions := l; submissions := submissions (dbData w) |};
     file := file w |}.

Definition setSubmissions (l : list Submission.t) (w : World) : World :=
  {| dbData := {| sessions := sessions (dbData w); submissions := l |};
     file := file w |}.

(** ** Authentication routes

    [req.session.user] of a client is an optional [User]: absent until a
    login succeeds.  A route of this group maps it to an answer and to the
    value it has for the client's next request; none touches [dbData]. *)

Inductive AuthJson :=
| JLogin (success : bool) (message : string) (campus : option string)
| JLogoutError (error : string)
| JRedirect (location : string)
| JCheckSession (loggedIn : bool) (campus : option string).

Record AuthResponse := mkAuthResponse {
  auth_status : nat;
  auth_json : AuthJson
}.

Definition validUsernames : list string :=
  ["Bordeaux"; "Dijon"; "Fréjus"; "Laval"; "Lille"; "Paris"; "Rennes";
   "Thonon"; "Toulouse"].

(** [password === 'demo'] on a body field. *)
Definition isDemo (password : option string) : bool :=
  match password with
  | Some p => p =? "demo"
  | None => false
  end.

(** POST /api/login *)
Definition login (b : Body) (user : option User) : AuthResponse * option User :=
  let username := field "username" b in
  let password := field "password" b in
  if includes validUsernames username && isDemo password then
    ({| auth_status := 200;
        auth_json := JLogin true "Logged in successfully!" (Some (value username)) |},
     Some {| username := value username; user_campus := value username |})
  else
    ({| auth_status := 200;
        auth_json := JLogin false "Invalid credentials." None |},
     user).

(** GET /api/logout; [err] tells whether the store failed to destroy the
    session, which then stays as it was. *)
Definition logout (err : bool) (user : option User) : AuthResponse * option User :=
  if err then
    ({| auth_status := 500;
        auth_json := JLogoutError "Could not log out. Please try again." |},
     user)
  else
    ({| auth_status := 302; auth_json := JRedirect "/" |}, None).

(** GET /api/checkSession *)
Definition checkSession (user : option User) : AuthResponse * option User :=
  match user with
  | Some u =>
      ({| auth_status := 200;
          auth_json := JCheckSession true (Some (user_campus u)) |}, user)
  | None =>
      ({| auth_status := 200; auth_json := JCheckSession false None |}, user)
  end.

(** ** Sessions routes *)

(** GET /api/sessions *)
Definition getSessions : Handler :=
  isAuthenticated (fun user req w =>
    let userCampus := user_campus user in
    let sessions :=
      filter (fun s => Session.campus s =? userCampus) (sessions (dbData w)) in
    ({| status := 200; json := JSessions sessions |}, w)).

(** POST /api/sessions; [uuid] is what [uuidv4()] returns for this request. *)
Definition postSessions (uuid : string) : Handler :=
  isAuthenticated (fun user req w =>
    let name := field "name" (body req) in
    if negb (truthy name) then fail 400 "Session name is required." w
    else
      let newSession :=
        {| Session.id := uuid;
           Session.name := value name;
           Session.campus := user_campus user;
           Session.juries := [];
           Session.students := [] |} in
      let w1 := setSessions (sessions (dbData w) ++ [newSession]) w in
      let w2 := saveDatabase w1 in
      ({| status := 200;
          json := JMessageSession "Session created successfully!" newSession |},
       w2)).

(** DELETE /api/sessions/:id *)
Definition deleteSession : Handler :=
  isAuthenticated (fun user req w =>
    let sessionId := params_id req in
    match findIndex sessionId (sessions (dbData w)) with
    | None => fail 404 "Session not found." w
    | Some sessionIndex =>
        match nth_error (sessions (dbData w)) sessionIndex with
        | None =>
            (* not reached: [findIndex] answers an index of the array; reading
               [campus] of [undefined] would throw *)
            fail 500 "TypeError" w
        | Some sessionToDelete =>
            if negb (Session.campus sessionToDelete =? user_campus user) then
              fail 403 "Forbidden - Session belongs to another campus." w
            else
              let w1 := setSessions (splice1 sessionIndex (sessions (dbData w))) w in
              let w2 :=
                setSubmissions
                  (filter (fun sub => negb (Submission.sessionId sub =? sessionId))
                     (submissions (dbData w1))) w1 in
              let w3 := saveDatabase w2 in
              ({| status := 200; json := JMessage "Session deleted successfully." |},
               w3)
        end
    end).

(** ** Juries and students routes *)

Definition pushJury (juryName : string) (s : Session.t) : Session.t :=
  {| Session.id := Session.id s;
     Session.name := Session.name s;
     Session.campus := Session.campus s;
     Session.juries := Session.juries s ++ [juryName];
     Session.students := Session.students s |}.

(** [juries.filter((j) => j !== juryName)]: a string differs from
    [undefined]. *)
Definition differs (v : option string) (x : string) : bool :=
  match v with
  | Some y => negb (x =? y)
  | None => true
  end.

Definition filterJuries (juryName : option string) (s : Session.t) : Session.t :=
  {| Session.id := Session.id s;
     Session.name := Session.name s;
     Session.campus := Session.campus s;
     Session.juries := filter (differs juryName) (Session.juries s);
     Session.students := Session.students s |}.

Definition pushStudent (studentName : string) (s : Session.t) : Session.t :=
  {| Session.id := Session.id s;
     Session.name := Session.name s;
     Session.campus := Session.campus s;
     Session.juries := Session.juries s;
     Session.students := Session.students s ++ [studentName] |}.

Definition filterStudents (studentName : option string) (s : Session.t)
  : Session.t :=
  {| Session.id := Session.id s;
     Session.name := Session.name s;
     Session.campus := Session.campus s;
     Session.juries := Session.juries s;
     Session.students := filter (differs studentName) (Session.students s) |}.

(** The part the four routes share once the session id is read: look the
    session up, check its campus, mutate it in place, save, answer with it. *)
Definition onOwnSession (user : User) (sessionId : string)
    (f : Session.t -> Session.t) (message : string) (w : World)
  : Response * World :=
  match findSession (Some sessionId) (sessions (dbData w)) with
  | None => fail 404 "Session not found." w
  | Some sessionFound =>
      if negb (Session.campus sessionFound =? user_campus user) then
        fail 403 "Forbidden - Session belongs to another campus." w
      else
        let w1 := setSessions (mutateFound sessionId f (sessions (dbData w))) w in
        let w2 := saveDatabase w1 in
        ({| status := 200; json := JMessageSession message (f sessionFound) |}, w2)
  end.

(** POST /api/sessions/:id/juries *)
Definition postJuries : Handler :=
  isAuthenticated (fun user req w =>
    let sessionId := params_id req in
    let juryName := field "juryName" (body req) in
    if negb (truthy juryName) then fail 400 "Jury name is required." w
    else
      onOwnSession user sessionId (pushJury (value juryName))
        "Jury added successfully." w).

(** DELETE /api/sessions/:id/juries *)
Definition deleteJuries : Handler :=
  isAuthenticated (fun user req w =>
    let sessionId := params_id req in
    let juryName := field "juryName" (body req) in
    onOwnSession user sessionId (filterJuries juryName)
      "Jury deleted successfully." w).

(** POST /api/sessions/:id/students *)
Definition postStudents : Handler :=
  isAuthenticated (fun user req w =>
    let sessionId := params_id req in
    let studentName := field "studentName" (body req) in
    if negb (truthy studentName) then fail 400 "Student name is required." w
    else
      onOwnSession user sessionId (pushStudent (value studentName))
        "Student added successfully." w).

(** DELETE /api/sessions/:id/students *)
Definition deleteStudents : Handler :=
  isAuthenticated (fun user req w =>
    let sessionId := params_id req in
    let studentName := field "studentName" (body req) in
    onOwnSession user sessionId (filterStudents studentName)
      "Student deleted successfully." w).

(** ** Evaluations and results routes *)

Section Server.

(** JavaScript's [parseFloat], from a body field to a Number. *)
Variable parseFloat : option string -> float.

(** The eighteen [parseFloat] calls of [newSubmission]. *)
Definition parseScores (b : Body) : Scores.t :=
  {| Scores.introductionTeam := parseFloat (field "introductionTeam" b);
     Scores.projectInspiration := parseFloat (field "projectInspiration" b);
     Scores.technologyArchitecture := parseFloat (field "technologyArchitecture" b);
     Scores.algorithmsCode := parseFloat (field "algorithmsCode" b);
     Scores.processCollaboration := parseFloat (field "processCollaboration" b);
     Scores.challengesFaced := parseFloat (field "challengesFaced" b);
     Scores.technicalLearnings := parseFloat (field "technicalLearnings" b);
     Scores.audibles := parseFloat (field "audibles" b);
     Scores.clarity := parseFloat (field "clarity" b);
     Scores.fewFillerWords := parseFloat (field "fewFillerWords" b);
     Scores.stagePosition := parseFloat (field "stagePosition" b);
     Scores.confidentPosture := parseFloat (field "confidentPosture" b);
     Scores.professionalAttire := parseFloat (field "professionalAttire" b);
     Scores.timeManagement := parseFloat (field "timeManagement" b);
     Scores.energy := parseFloat (field "energy" b);
     Scores.audienceInteraction := parseFloat (field "audienceInteraction" b);
     Scores.projectFunctionality := parseFloat (field "projectFunctionality" b);
     Scores.questionsAnswers := parseFloat (field "questionsAnswers" b) |}.

Definition newSubmission (b : Body) : Submission.t :=
  {| Submission.sessionId := value (field "sessionId" b);
     Submission.juryName := value (field "juryName" b);
     Submission.studentName := value (field "studentName" b);
     Submission.scores := parseScores b;
     Submission.studentComments :=
       (let studentComments := field "studentComments" b in
        if truthy studentComments then value studentComments else "") |}.

(** POST /api/submitEvaluation *)
Definition submitEvaluation : Handler :=
  isAuthenticated (fun user req w =>
    let sessionId := field "sessionId" (body req) in
    let juryName := field "juryName" (body req) in
    let studentName := field "studentName" (body req) in
    match findSession sessionId (sessions (dbData w)) with
    | None => fail 400 "Session does not exist." w
    | Some sessionFound =>
        if negb (Session.campus sessionFound =? user_campus user) then
          fail 403 "Forbidden - Session belongs to another campus." w
        else if negb (includes (Session.juries sessionFound) juryName) then
          fail 400 "Jury does not exist in this session." w
        else if negb (includes (Session.students sessionFound) studentName) then
          fail 400 "Student does not exist in this session." w
        else
          let w1 :=
            setSubmissions (submissions (dbData w) ++ [newSubmission (body req)]) w in
          let w2 := saveDatabase w1 in
          ({| status := 200; json := JMessage "Evaluation submitted successfully!" |},
           w2)
    end).

End Server.

(** *** Aggregation *)

(** The template literal [`${sub.sessionId}_${sub.studentName}`]. *)
Definition key (sub : Submission.t) : string :=
  Submission.sessionId sub ++ "_" ++ Submission.studentName sub.

(** The object [aggregates]: its own properties, in insertion order. *)
Definition Aggregates := list (string * Agg.t).

(** The property names every object literal inherits from
    [Object.prototype]; each names a function or an object, hence a truthy
    value. *)
Definition Object_prototype : list string :=
  ["constructor"; "__defineGetter__"; "__defineSetter__"; "hasOwnProperty";
   "__lookupGetter__"; "__lookupSetter__"; "isPrototypeOf";
   "propertyIsEnumerable"; "toString"; "valueOf"; "__proto__";
   "toLocaleString"].

Definition inherited (k : string) : bool :=
  existsb (fun p => p =? k) Object_prototype.

Fixpoint own (k : string) (o : Aggregates) : option Agg.t :=
  match o with
  | [] => None
  | (k', a) :: o' => if k' =? k then Some a else own k o'
  end.

(** What [aggregates[key]] evaluates to. *)
Inductive Property :=
| Undefined
| Own (agg : Agg.t)
| Inherited.

Definition get (o : Aggregates) (k : string) : Property :=
  match own k o with
  | Some a => Own a
  | None => if inherited k then Inherited else Undefined
  end.

(** [aggregates[key] = a] on an own or absent property: the value is replaced
    where the key stands, or the property is added last. *)
Fixpoint set (o : Aggregates) (k : string) (a : Agg.t) : Aggregates :=
  match o with
  | [] => [(k, a)]
  | (k', a') :: o' => if k' =? k then (k', a) :: o' else (k', a') :: set o' k a
  end.

Definition zeroScores : Scores.t :=
  {| Scores.introductionTeam := 0;
     Scores.projectInspiration := 0;
     Scores.technologyArchitecture := 0;
     Scores.algorithmsCode := 0;
     Scores.processCollaboration := 0;
     Scores.challengesFaced := 0;
     Scores.technicalLearnings := 0;
     Scores.audibles := 0;
     Scores.clarity := 0;
     Scores.fewFillerWords := 0;
     Scores.stagePosition := 0;
     Scores.confidentPosture := 0;
     Scores.professionalAttire := 0;
     Scores.timeManagement := 0;
     Scores.energy := 0;
     Scores.audienceInteraction := 0;
     Scores.projectFunctionality := 0;
     Scores.questionsAnswers := 0 |}.

(** The object a first submission of a key installs. *)
Definition emptyAgg (sub : Submission.t) : Agg.t :=
  {| Agg.sessionId := Submission.sessionId sub;
     Agg.studentName := Submission.studentName sub;
     Agg.sums := zeroScores;
     Agg.count := 0 |}.

(** The eighteen [agg.c += sub.c]. *)
Definition addScores (a b : Scores.t) : Scores.t :=
  {| Scores.introductionTeam := Scores.introductionTeam a + Scores.introductionTeam b;
     Scores.projectInspiration := Scores.projectInspiration a + Scores.projectInspiration b;
     Scores.technologyArchitecture :=
       Scores.technologyArchitecture a + Scores.technologyArchitecture b;
     Scores.algorithmsCode := Scores.algorithmsCode a + Scores.algorithmsCode b;
     Scores.processCollaboration :=
       Scores.processCollaboration a + Scores.processCollaboration b;
     Scores.challengesFaced := Scores.challengesFaced a + Scores.challengesFaced b;
     Scores.technicalLearnings := Scores.technicalLearnings a + Scores.technicalLearnings b;
     Scores.audibles := Scores.audibles a + Scores.audibles b;
     Scores.clarity := Scores.clarity a + Scores.clarity b;
     Scores.fewFillerWords := Scores.fewFillerWords a + Scores.fewFillerWords b;
     Scores.stagePosition := Scores.stagePosition a + Scores.stagePosition b;
     Scores.confidentPosture := Scores.confidentPosture a + Scores.confidentPosture b;
     Scores.professionalAttire := Scores.professionalAttire a + Scores.professionalAttire b;
     Scores.timeManagement := Scores.timeManagement a + Scores.timeManagement b;
     Scores.energy := Scores.energy a + Scores.energy b;
     Scores.audienceInteraction :=
       Scores.audienceInteraction a + Scores.audienceInteraction b;
     Scores.projectFunctionality :=
       Scores.projectFunctionality a + Scores.projectFunctionality b;
     Scores.questionsAnswers := Scores.questionsAnswers a + Scores.questionsAnswers b |}%float.

Definition accumulate (agg : Agg.t) (sub : Submission.t) : Agg.t :=
  {| Agg.sessionId := Agg.sessionId agg;
     Agg.studentName := Agg.studentName agg;
     Agg.sums := addScores (Agg.sums agg) (Submission.scores sub);
     Agg.count := Agg.count agg + 1 |}.

(** The body of [rawSubmissions.forEach].  Under a key that
    [Object.prototype] defines, [aggregates[key]] is truthy from the start:
    no entry is installed and the eighteen additions write to the inherited
    object, leaving the own properties of [aggregates] as they are. *)
Definition forEachBody (aggregates : Aggregates) (sub : Submission.t)
  : Aggregates :=
  let key := key sub in
  let aggregates1 :=
    match get aggregates key with
    | Undefined => set aggregates key (emptyAgg sub)
    | _ => aggregates
    end in
  match get aggregates1 key with
  | Own agg => set aggregates1 key (accumulate agg sub)
  | _ => aggregates1
  end.

(** The Number the property [count] holds after [n] executions of
    [agg.count += 1] from [count: 0]. *)
Definition Number_of_count (n : nat) : float :=
  Nat.iter n (fun count => (count + 1)%float) 0%float.

Definition average (a : Agg.t) : Row.t :=
  let n := Number_of_count (Agg.count a) in
  let s := Agg.sums a in
  {| Row.sessionId := Agg.sessionId a;
     Row.studentName := Agg.studentName a;
     Row.avgs :=
       {| Scores.introductionTeam := Scores.introductionTeam s / n;
          Scores.projectInspiration := Scores.projectInspiration s / n;
          Scores.technologyArchitecture := Scores.technologyArchitecture s / n;
          Scores.algorithmsCode := Scores.algorithmsCode s / n;
          Scores.processCollaboration := Scores.processCollaboration s / n;
          Scores.challengesFaced := Scores.challengesFaced s / n;
          Scores.technicalLearnings := Scores.technicalLearnings s / n;
          Scores.audibles := Scores.audibles s / n;
          Scores.clarity := Scores.clarity s / n;
          Scores.fewFillerWords := Scores.fewFillerWords s / n;
          Scores.stagePosition := Scores.stagePosition s / n;
          Scores.confidentPosture := Scores.confidentPosture s / n;
          Scores.professionalAttire := Scores.professionalAttire s / n;
          Scores.timeManagement := Scores.timeManagement s / n;
          Scores.energy := Scores.energy s / n;
          Scores.audienceInteraction := Scores.audienceInteraction s / n;
          Scores.projectFunctionality := Scores.projectFunctionality s / n;
          Scores.questionsAnswers := Scores.questionsAnswers s / n |}%float |}.

(** [Object.values(aggregates)]: a key holds an underscore, so it is no array
    index and the values come in insertion order. *)
Definition Object_values (o : Aggregates) : list Agg.t := map snd o.

Definition campusSessionsOf (campus : string) (db : DB) : list Session.t :=
  filter (fun s => Session.campus s =? campus) (sessions db).

Definition rawSubmissionsOf (campus : string) (db : DB) : list Submission.t :=
  let campusSessionIds := map Session.id (campusSessionsOf campus db) in
  filter (fun sub => includes campusSessionIds (Some (Submission.sessionId sub)))
    (submissions db).

Definition aggregatesOf (rawSubmissions : list Submission.t) : Aggregates :=
  fold_left forEachBody rawSubmissions [].

Definition aggregatedOf (rawSubmissions : list Submission.t) : list Row.t :=
  map average (Object_values (aggregatesOf rawSubmissions)).

(** GET /api/resultsWithAverages *)
Definition resultsWithAverages : Handler :=
  isAuthenticated (fun user req w =>
    let campus := user_campus user in
    let campusSessions := campusSessionsOf campus (dbData w) in
    let rawSubmissions := rawSubmissionsOf campus (dbData w) in
    let aggregated := aggregatedOf rawSubmissions in
    ({| status := 200; json := JResults rawSubmissions aggregated campusSessions |},
     w)).

(** ** The application: its routes *)

Inductive Route :=
| GET_sessions
| POST_sessions (uuid : string)
| DELETE_sessions_id
| POST_sessions_id_juries
| DELETE_sessions_id_juries
| POST_sessions_id_students
| DELETE_sessions_id_students
| POST_submitEvaluation
| GET_resultsWithAverages.

Definition app (parseFloat : option string -> float) (r : Route) : Handler :=
  match r with
  | GET_sessions => getSessions
  | POST_sessions uuid => postSessions uuid
  | DELETE_sessions_id => deleteSession
  | POST_sessions_id_juries => postJuries
  | DELETE_sessions_id_juries => deleteJuries
  | POST_sessions_id_students => postStudents
  | DELETE_sessions_id_students => deleteStudents
  | POST_submitEvaluation => submitEvaluation parseFloat
  | GET_resultsWithAverages => resultsWithAverages
  end.

(** ** The browser script (public/js/ui_updater.js)

    The page is the global [sessionData] and the four elements the script
    looks up, each absent when [getElementById] answers [null].  Of an
    element the script uses the text, the class list and the page its click
    handler opens. *)

Record Data := mkData {
  loggedIn : bool;
  campus : option string
}.

Record Element := mkElement {
  textContent : string;
  classList : list string;
  onclick : option string
}.

Record Page := mkPage {
  sessionData : Data;
  campusIndicator : option Element;
  navForm : option Element;
  navResults : option Element;
  startEvaluationBtn : option Element
}.

(** [classList.remove(token)] and [classList.add(token)]: a class list
    holds a token at most once, and a new token goes last. *)
Definition classList_remove (token : string) (e : Element) : Element :=
  {| textContent := textContent e;
     classList := filter (fun t => negb (t =? token)) (classList e);
     onclick := onclick e |}.

Definition classList_add (token : string) (e : Element) : Element :=
  {| textContent := textContent e;
     classList :=
       if existsb (fun t => t =? token) (classList e) then classList e
       else classList e ++ [token];
     onclick := onclick e |}.

Definition setTextContent (text : string) (e : Element) : Element :=
  {| textContent := text; classList := classList e; onclick := onclick e |}.

Definition setOnclick (href : string) (e : Element) : Element :=
  {| textContent := textContent e; classList := classList e;
     onclick := Some href |}.

(** ['- ' + data.campus]: [null] is spelled out. *)
Definition campusText (data : Data) : string :=
  "- " ++ match campus data with Some c => c | None => "null" end.

Definition updateUI (data : Data) (p : Page) : Page :=
  let campusIndicator' :=
    match campusIndicator p with
    | Some e =>
        if loggedIn data then Some (setTextContent (campusText data) e)
        else Some (setTextContent "" e)
    | None => None
    end in
  let nav' :=
    match navForm p, navResults p with
    | Some f, Some r =>
        if loggedIn data then
          (Some (classList_remove "disabled" f), Some (classList_remove "disabled" r))
        else
          (Some (classList_add "disabled" f), Some (classList_add "disabled" r))
    | f, r => (f, r)
    end in
  let startEvaluationBtn' :=
    match startEvaluationBtn p with
    | Some e =>
        if loggedIn data then
          Some (setOnclick "./form.html" (setTextContent "Start evaluation" e))
        else
          Some (setOnclick "./dashboard.html" (setTextContent "Login to evaluate" e))
    | None => None
    end in
  {| sessionData := data;
     campusIndicator := campusIndicator';
     navForm := fst nav';
     navResults := snd nav';
     startEvaluationBtn := startEvaluationBtn' |}.

(** The listener of [DOMContentLoaded]; [updateUI] does not throw here, so
    the handler of the [try] is not entered. *)
Definition onDOMContentLoaded (p : Page) : Page :=
  updateUI (sessionData p) p.

(** * Vocabulary of the properties *)

(** What a successful [find] says about the array: the session found is the
    first one with the id. *)
Inductive FirstWithId (sid : string) (s : Session.t)
  : list Session.t -> list Session.t -> list Session.t -> Prop :=
| first_with_id l1 l2 :
    Session.id s = sid ->
    Forall (fun x => Session.id x <> sid) l1 ->
    FirstWithId sid s (l1 ++ s :: l2) l1 l2.

(** [v] names an entry of the array [l]. *)
Definition listed (l : list string) (v : option string) : Prop :=
  exists x, v = Some x /\ In x l.

(** The routes that change the state of an existing session, or add to it. *)
Inductive Mutation :=
| Delete | AddJury | RemoveJury | AddStudent | RemoveStudent | Submit.

Definition mutate (parseFloat : option string -> float) (m : Mutation) : Handler :=
  match m with
  | Delete => deleteSession
  | AddJury => postJuries
  | RemoveJury => deleteJuries
  | AddStudent => postStudents
  | RemoveStudent => deleteStudents
  | Submit => submitEvaluation parseFloat
  end.

(** The session id a request names: in the path, or in the body of a
    submission. *)
Definition target (m : Mutation) (req : Request) : option string :=
  match m with
  | Submit => field "sessionId" (body req)
  | _ => Some (params_id req)
  end.

(** An add request without the name to add. *)
Definition nameless (m : Mutation) (req : Request) : bool :=
  match m with
  | AddJury => negb (truthy (field "juryName" (body req)))
  | AddStudent => negb (truthy (field "studentName" (body req)))
  | _ => false
  end.

(** The answer of every route to a request on another campus's session. *)
Definition forbidden : Response :=
  {| status := 403; json := JError "Forbidden - Session belongs to another campus." |}.

(** No listing made for campus [B] holds the session [s]. *)
Definition hidden_from (B : string) (s : Session.t) (w : World) : Prop :=
  forall req u, session_user req = Some u -> user_campus u = B ->
    exists l, getSessions req w = ({| status := 200; json := JSessions l |}, w)
              /\ ~ In s l.

(** Isolation as the specification words it: every mutation from campus [B]
    on a session of campus [A] is answered 403. *)
Definition isolation_as_specified (parseFloat : option string -> float)
    (A B : string) (w : World) : Prop :=
  (forall s, Session.campus s = A -> hidden_from B s w)
  /\
  (forall m req u s,
     session_user req = Some u -> user_campus u = B ->
     findSession (target m req) (sessions (dbData w)) = Some s ->
     Session.campus s = A ->
     mutate parseFloat m req w = (forbidden, w)).

(** Isolation as the code has it: an add request without a name is answered
    400 before the session is looked at. *)
Definition isolation (parseFloat : option string -> float)
    (A B : string) (w : World) : Prop :=
  (forall s, Session.campus s = A -> hidden_from B s w)
  /\
  (forall m req u s,
     session_user req = Some u -> user_campus u = B ->
     findSession (target m req) (sessions (dbData w)) = Some s ->
     Session.campus s = A ->
     (nameless m req = false -> mutate parseFloat m req w = (forbidden, w))
     /\ (nameless m req = true ->
         status (fst (mutate parseFloat m req w)) = 400
         /\ snd (mutate parseFloat m req w) = w)).

(** The identifier and campus of each session, in the order of the array. *)
Definition owners (w : World) : list (string * string) :=
  map (fun s => (Session.id s, Session.campus s)) (sessions (dbData w)).

(** A (sessionId, studentName) pair. *)
Definition Pair := (string * string)%type.

(** The pair of a submission. *)
Definition pairOf (sub : Submission.t) : Pair :=
  (Submission.sessionId sub, Submission.studentName sub).

(** The pair a row stands for. *)
Definition rowPair (r : Row.t) : Pair := (Row.sessionId r, Row.studentName r).

Definition pair_eqb (p q : Pair) : bool :=
  (fst p =? fst q) && (snd p =? snd q).

(** The distinct pairs of a sequence, each at its first occurrence. *)
Fixpoint firstOccurrences (l : list Pair) : list Pair :=
  match l with
  | [] => []
  | p :: l' => p :: filter (fun q => negb (pair_eqb q p)) (firstOccurrences l')
  end.

(** The submissions of a pair, in the order of the sequence. *)
Definition group (p : Pair) (raw : list Submission.t) : list Submission.t :=
  filter (fun sub => pair_eqb (pairOf sub) p) raw.

(** The sum of a criterion over submissions, added in their order from 0,
    and their mean. *)
Definition total (c : criterion) (subs : list Submission.t) : float :=
  fold_left PrimFloat.add (map (fun sub => score c (Submission.scores sub)) subs)
    0%float.

Definition mean (c : criterion) (subs : list Submission.t) : float :=
  (total c subs / Number_of_count (List.length subs))%float.

(** The aggregation property: the raw submissions are those of the campus's
    sessions; there is one row per distinct pair among them, in the order of
    first occurrence; each average of a row is the mean over its group. *)
Definition aggregation_as_specified (campus : string) (db : DB) : Prop :=
  (forall sub,
     In sub (rawSubmissionsOf campus db) <->
     In sub (submissions db)
     /\ exists s, In s (sessions db) /\ Session.campus s = campus
                  /\ Session.id s = Submission.sessionId sub)
  /\ map rowPair (aggregatedOf (rawSubmissionsOf campus db))
     = firstOccurrences (map pairOf (rawSubmissionsOf campus db))
  /\ (forall r, In r (aggregatedOf (rawSubmissionsOf campus db)) ->
      forall c,
        score c (Row.avgs r)
        = mean c (group (rowPair r) (rawSubmissionsOf campus db))).




(** The key the loop makes for the submissions of a pair. *)
Definition keyOfPair (p : Pair) : string := fst p ++ "_" ++ snd p.




(** The keys of the submissions tell their pairs apart and none is a
    property of [Object.prototype]. *)
Definition faithful (l : list Submission.t) : Prop :=
  (forall x y, In x l -> In y l -> key x = key y -> pairOf x = pairOf y)
  /\ (forall x, In x l -> inherited (key x) = false).

(** An own property of [aggregates] sits under the key of the pair its value
    records, and that key is no property of [Object.prototype]. *)
Definition keyed (e : string * Agg.t) : Prop :=
  fst e = keyOfPair (Agg.sessionId (snd e), Agg.studentName (snd e))
  /\ inherited (fst e) = false.


(** ** The ways a request ends *)

(** The change a jury or student route makes to the session it finds, with
    the message of its answer; none for an add request without a name, and
    for the other routes. *)
Definition mutation (r : Route) (req : Request)
  : option ((Session.t -> Session.t) * string) :=
  match r with
  | POST_sessions_id_juries =>
      if truthy (field "juryName" (body req)) then
        Some (pushJury (value (field "juryName" (body req))),
              "Jury added successfully.")
      else None
  | DELETE_sessions_id_juries =>
      Some (filterJuries (field "juryName" (body req)), "Jury deleted successfully.")
  | POST_sessions_id_students =>
      if truthy (field "studentName" (body req)) then
        Some (pushStudent (value (field "studentName" (body req))),
              "Student added successfully.")
      else None
  | DELETE_sessions_id_students =>
      Some (filterStudents (field "studentName" (body req)),
            "Student deleted successfully.")
  | _ => None
  end.

(** The answer and the state after a request on a route, by cases: refused
    for want of a login, read, rejected, or one of the four changes. *)
Inductive Outcome (parseFloat : option string -> float) (r : Route)
    (req : Request) (w : World) : Response -> World -> Prop :=
| Unauthorized :
    session_user req = None ->
    Outcome parseFloat r req w {| status := 401; json := JError "Unauthorized" |} w
| Read u resp :
    session_user req = Some u ->
    r = GET_sessions \/ r = GET_resultsWithAverages ->
    status resp = 200 ->
    Outcome parseFloat r req w resp w
| Rejected u code error :
    session_user req = Some u ->
    r <> GET_sessions -> r <> GET_resultsWithAverages ->
    In code [400; 403; 404] ->
    Outcome parseFloat r req w {| status := code; json := JError error |} w
| Created u uuid n :
    session_user req = Some u ->
    r = POST_sessions uuid ->
    field "name" (body req) = Some n -> n <> "" ->
    Outcome parseFloat r req w
      {| status := 200;
         json := JMessageSession "Session created successfully!"
                   {| Session.id := uuid; Session.name := n;
                      Session.campus := user_campus u;
                      Session.juries := []; Session.students := [] |} |}
      (saved {| sessions :=
                  sessions (dbData w)
                  ++ [{| Session.id := uuid; Session.name := n;
                         Session.campus := user_campus u;
                         Session.juries := []; Session.students := [] |}];
                submissions := submissions (dbData w) |})
| Deleted u s l1 l2 :
    session_user req = Some u ->
    r = DELETE_sessions_id ->
    FirstWithId (params_id req) s (sessions (dbData w)) l1 l2 ->
    Session.campus s = user_campus u ->
    Outcome parseFloat r req w
      {| status := 200; json := JMessage "Session deleted successfully." |}
      (saved {| sessions := l1 ++ l2;
                submissions :=
                  filter (fun sub => negb (Submission.sessionId sub =? params_id req))
                    (submissions (dbData w)) |})
| Mutated u s l1 l2 f message :
    session_user req = Some u ->
    mutation r req = Some (f, message) ->
    FirstWithId (params_id req) s (sessions (dbData w)) l1 l2 ->
    Session.campus s = user_campus u ->
    Outcome parseFloat r req w
      {| status := 200; json := JMessageSession message (f s) |}
      (saved {| sessions := l1 ++ f s :: l2;
                submissions := submissions (dbData w) |})
| Submitted u s :
    session_user req = Some u ->
    r = POST_submitEvaluation ->
    findSession (field "sessionId" (body req)) (sessions (dbData w)) = Some s ->
    Session.campus s = user_campus u ->
    listed (Session.juries s) (field "juryName" (body req)) ->
    listed (Session.students s) (field "studentName" (body req)) ->
    Outcome parseFloat r req w
      {| status := 200; json := JMessage "Evaluation submitted successfully!" |}
      (saved {| sessions := sessions (dbData w);
                submissions :=
                  submissions (dbData w) ++ [newSubmission parseFloat (body req)] |}).

(** ** Invariants of the store *)

(** No two sessions share an identifier. *)
Definition uniqueIds (db : DB) : Prop := NoDup (map Session.id (sessions db)).

(** Every submission refers to a session of the store. *)
Definition referenced (db : DB) : Prop :=
  forall sub, In sub (submissions db) ->
    exists s, In s (sessions db) /\ Session.id s = Submission.sessionId sub.


(** What campus [B] is shown of a store: its sessions and the raw
    submissions of its results (the rows are computed from these). *)
Definition view (B : string) (db : DB) : list Session.t * list Submission.t :=
  (campusSessionsOf B db, rawSubmissionsOf B db).

(** A value of [req.session.user] that a login can have made: campus and
    username are one name of the list. *)
Definition fromLogin (user : option User) : Prop :=
  match user with
  | Some u => user_campus u = username u /\ In (username u) validUsernames
  | None => True
  end.

(** The campuses of the stored sessions are names of the list. *)
Definition campusesValid (db : DB) : Prop :=
  forall s, In s (sessions db) -> In (Session.campus s) validUsernames.

(** * Fixtures

    The data of the test suite (tests/app.test.js), on which the model is
    run: campus Toulouse, session C#22, jury Hugo, student Fabien. *)

(** An instance of the [parseFloat] parameter to run the model with: exact
    on an absent field and on a run of decimal digits, the inputs of the
    fixtures; any other string is sent to NaN. *)
Definition digit (c : ascii) : option Z :=
  let n := Z.of_nat (nat_of_ascii c) in
  if ((48 <=? n) && (n <=? 57))%Z then Some (n - 48)%Z else None.

Fixpoint digits (s : string) (acc : Z) : option Z :=
  match s with
  | EmptyString => Some acc
  | String c s' =>
      match digit c with
      | Some d => digits s' (10 * acc + d)%Z
      | None => None
      end
  end.

Definition parseFloat_digits (v : option string) : float :=
  match v with
  | Some (String c s') =>
      match digits (String c s') 0 with
      | Some n => PrimFloat.of_uint63 (Uint63.of_Z n)
      | None => nan
      end
  | _ => nan
  end.

Definition toulouse : User := {| username := "Toulouse"; user_campus := "Toulouse" |}.
Definition paris : User := {| username := "Paris"; user_campus := "Paris" |}.

Definition idC22 : string := "1b9d6bcd-bbfd-4b2d-9b5d-ab8dfbbd4bed".
Definition idParis : string := "9c4f2a6e-0d3b-4f7a-8e21-5b6c7d8e9f01".

Definition sessionC22 : Session.t :=
  {| Session.id := idC22;
     Session.name := "C#22";
     Session.campus := "Toulouse";
     Session.juries := ["Hugo"; "Lea"; "Hugo"];
     Session.students := ["Fabien"] |}.

Definition sessionParis : Session.t :=
  {| Session.id := idParis;
     Session.name := "C#21";
     Session.campus := "Paris";
     Session.juries := ["Ines"];
     Session.students := ["Noe"] |}.

(** The payload of the test suite: no [projectFunctionality]. *)
Definition evaluationPayload : Body :=
  [("introductionTeam", "1"); ("projectInspiration", "1");
   ("technologyArchitecture", "5"); ("algorithmsCode", "5");
   ("processCollaboration", "2"); ("challengesFaced", "5");
   ("technicalLearnings", "1"); ("audibles", "1"); ("clarity", "1");
   ("fewFillerWords", "1"); ("stagePosition", "1");
   ("confidentPosture", "1"); ("professionalAttire", "1");
   ("timeManagement", "1"); ("energy", "1"); ("audienceInteraction", "1");
   ("questionsAnswers", "1"); ("studentComments", "Well done!")].

Definition evaluationBody : Body :=
  [("sessionId", idC22); ("juryName", "Hugo"); ("studentName", "Fabien")]
  ++ evaluationPayload.

Definition submissionFabien : Submission.t := newSubmission parseFloat_digits evaluationBody.

Definition db0 : DB :=
  {| sessions := [sessionParis; sessionC22];
     submissions := [submissionFabien] |}.

Definition world0 : World := saved db0.

Definition request (u : User) (sid : string) (b : Body) : Request :=
  {| session_user := Some u; params_id := sid; body := b |}.

Definition uuid23 : string := "7d1f0a52-3c4e-4b6a-9f80-2e1d3c4b5a69".

Definition session23 : Session.t :=
  {| Session.id := uuid23; Session.name := "C#23"; Session.campus := "Toulouse";
     Session.juries := []; Session.students := [] |}.

Definition sessionC22_without_Hugo : Session.t :=
  {| Session.id := idC22; Session.name := "C#22"; Session.campus := "Toulouse";
     Session.juries := ["Lea"]; Session.students := ["Fabien"] |}.

(** A state that defeats the property as specified: the key [a_b_c] stands
    for student [b_c] of session [a] and for student [c] of session [a_b]. *)
Definition session_a : Session.t :=
  {| Session.id := "a"; Session.name := "A"; Session.campus := "Toulouse";
     Session.juries := ["Hugo"]; Session.students := ["b_c"] |}.

Definition session_a_b : Session.t :=
  {| Session.id := "a_b"; Session.name := "B"; Session.campus := "Toulouse";
     Session.juries := ["Hugo"]; Session.students := ["c"] |}.

Definition dbCollision : DB :=
  {| sessions := [session_a; session_a_b];
     submissions :=
       [newSubmission parseFloat_digits
          ([("sessionId", "a"); ("juryName", "Hugo"); ("studentName", "b_c")]
           ++ evaluationPayload);
        newSubmission parseFloat_digits
          ([("sessionId", "a_b"); ("juryName", "Hugo"); ("studentName", "c")]
           ++ evaluationPayload)] |}.

(** Two juries grade Fabien in C#22 and one grades Noe in Paris's session:
    Toulouse reads one row, the means of Fabien's two submissions. *)
Definition submissionLea : Submission.t :=
  newSubmission parseFloat_digits
    [("sessionId", idC22); ("juryName", "Lea"); ("studentName", "Fabien");
     ("introductionTeam", "4"); ("projectInspiration", "2");
     ("technologyArchitecture", "2"); ("algorithmsCode", "5");
     ("processCollaboration", "3"); ("challengesFaced", "5");
     ("technicalLearnings", "1"); ("audibles", "1"); ("clarity", "1");
     ("fewFillerWords", "1"); ("stagePosition", "1");
     ("confidentPosture", "1"); ("professionalAttire", "1");
     ("timeManagement", "1"); ("energy", "1"); ("audienceInteraction", "1");
     ("projectFunctionality", "3"); ("questionsAnswers", "1")].

Definition submissionNoe : Submission.t :=
  newSubmission parseFloat_digits
    ([("sessionId", idParis); ("juryName", "Ines"); ("studentName", "Noe")]
     ++ evaluationPayload).

Definition db1 : DB :=
  {| sessions := [sessionParis; sessionC22];
     submissions := [submissionFabien; submissionNoe; submissionLea] |}.

Definition world1 : World := saved db1.


Definition emptyWorld : World :=
  loadDatabase {| dbData := {| sessions := []; submissions := [] |}; file := None |}.

Definition afterSubmit : World :=
  let w1 := snd (postSessions idC22 (request toulouse "" [("name", "C#22")]) emptyWorld) in
  let w2 := snd (postJuries (request toulouse idC22 [("juryName", "Hugo")]) w1) in
  let w3 := snd (postStudents (request toulouse idC22 [("studentName", "Fabien")]) w2) in
  snd (submitEvaluation parseFloat_digits (request toulouse "" evaluationBody) w3).

Definition afterCleanup : World :=
  let w5 := snd (deleteJuries (request toulouse idC22 [("juryName", "Hugo")]) afterSubmit) in
  let w6 := snd (deleteStudents (request toulouse idC22 [("studentName", "Fabien")]) w5) in
  snd (deleteSession (request toulouse idC22 []) w6).

Definition sessionC22_with_Hugo : Session.t :=
  {| Session.id := idC22; Session.name := "C#22"; Session.campus := "Toulouse";
     Session.juries := ["Hugo"; "Lea"; "Hugo"; "Hugo"];
     Session.students := ["Fabien"] |}.

Definition linkForm : Element :=
  {| textContent := "Form"; classList := ["nav-link"; "disabled"]; onclick := None |}.

Definition linkResults : Element :=
  {| textContent := "Results"; classList := ["nav-link"]; onclick := None |}.

Definition dashboard : Page :=
  {| sessionData := {| loggedIn := false; campus := None |};
     campusIndicator := Some {| textContent := ""; classList := []; onclick := None |};
     navForm := Some linkForm;
     navResults := Some linkResults;
     startEvaluationBtn := None |}.

(** * Properties *)

(** ** Lookup of a session by id *)

Lemma truthy_false (v : option string) :
  truthy v = false <-> v = None \/ v = Some "".
Proof.
  destruct v as [s|]; simpl.
  - rewrite negb_false_iff, String.eqb_eq. split.
    + intros ->. now right.
    + intros [H|H]; congruence.
  - split; auto.
Qed.

Lemma truthy_value (v : option string) :
  truthy v = true -> v = Some (value v) /\ value v <> "".
Proof.
  destruct v as [s|]; simpl; [|discriminate].
  rewrite negb_true_iff, String.eqb_neq. auto.
Qed.

Lemma findSession_first sid l s :
  findSession (Some sid) l = Some s ->
  exists l1 l2, FirstWithId sid s l l1 l2.
Proof.
  simpl. induction l as [|x l IH]; simpl; [discriminate|].
  destruct (Session.id x =? sid) eqn:E.
  - intros [= ->]. exists [], l. apply (first_with_id sid s [] l).
    + now apply String.eqb_eq.
    + constructor.
  - intros H. destruct (IH H) as (l1 & l2 & F). destruct F as [l1 l2 Hid Hl1].
    exists (x :: l1), l2. apply (first_with_id sid s (x :: l1) l2); auto.
    constructor; auto. now apply String.eqb_neq.
Qed.

Lemma findSession_none sid l :
  findSession (Some sid) l = None <->
  (forall s, In s l -> Session.id s <> sid).
Proof.
  simpl. split.
  - intros H s Hs. apply (find_none _ _ H) in Hs. now apply String.eqb_neq.
  - intros H. destruct (find _ l) as [s|] eqn:E; auto.
    apply find_some in E. destruct E as [Hs E]. apply String.eqb_eq in E.
    now elim (H s Hs).
Qed.

Lemma findSession_unique sid l s :
  NoDup (map Session.id l) -> In s l -> Session.id s = sid ->
  findSession (Some sid) l = Some s.
Proof.
  simpl. induction l as [|x l IH]; simpl; [tauto|].
  intros ND [->|Hs] Hid.
  - apply String.eqb_eq in Hid. now rewrite Hid.
  - inversion ND as [|? ? Hx ND']; subst.
    destruct (Session.id x =? Session.id s) eqn:E; auto.
    apply String.eqb_eq in E. elim Hx. rewrite E. now apply in_map.
Qed.

Lemma first_find sid s l l1 l2 :
  FirstWithId sid s l l1 l2 -> findSession (Some sid) l = Some s.
Proof.
  intros [l1' l2' Hid Hl1]. simpl.
  induction Hl1 as [|x l1' Hx _ IH]; simpl.
  - apply String.eqb_eq in Hid. now rewrite Hid.
  - apply String.eqb_neq in Hx. now rewrite Hx.
Qed.

Lemma first_findIndex sid s l l1 l2 :
  FirstWithId sid s l l1 l2 -> findIndex sid l = Some (List.length l1).
Proof.
  intros [l1' l2' Hid Hl1].
  induction Hl1 as [|x l1' Hx _ IH]; simpl.
  - apply String.eqb_eq in Hid. now rewrite Hid.
  - apply String.eqb_neq in Hx. now rewrite Hx, IH.
Qed.

Lemma first_nth_error sid s l l1 l2 :
  FirstWithId sid s l l1 l2 -> nth_error l (List.length l1) = Some s.
Proof.
  intros [l1' l2' _ _].
  rewrite nth_error_app2, Nat.sub_diag; auto.
Qed.

Lemma first_splice1 sid s l l1 l2 :
  FirstWithId sid s l l1 l2 -> splice1 (List.length l1) l = l1 ++ l2.
Proof.
  intros [l1' l2' _ _]. unfold splice1.
  rewrite firstn_app, firstn_all, Nat.sub_diag, skipn_app.
  replace (S (List.length l1') - List.length l1') with 1 by lia.
  rewrite skipn_all2 by lia. simpl. now rewrite app_nil_r.
Qed.

Lemma first_mutateFound sid s l l1 l2 f :
  FirstWithId sid s l l1 l2 -> mutateFound sid f l = l1 ++ f s :: l2.
Proof.
  intros [l1' l2' Hid Hl1].
  induction Hl1 as [|x l1' Hx _ IH]; simpl.
  - apply String.eqb_eq in Hid. now rewrite Hid.
  - apply String.eqb_neq in Hx. now rewrite Hx, IH.
Qed.

Lemma first_unique sid s l l1 l2 l1' l2' :
  FirstWithId sid s l l1 l2 -> FirstWithId sid s l l1' l2' ->
  l1 = l1' /\ l2 = l2'.
Proof.
  intros F. destruct F as [l1 l2 Hid Hl1]. revert l1'.
  induction Hl1 as [|x l1 Hx _ IH]; intros l1' F';
    inversion F' as [l1'' l2'' _ Hl1' Hl]; subst l1'' l2''.
  - destruct l1' as [|y l1']; simpl in Hl.
    + injection Hl as <-. auto.
    + injection Hl as <- _. inversion Hl1'; subst. congruence.
  - destruct l1' as [|y l1']; simpl in Hl.
    + injection Hl as -> _. congruence.
    + injection Hl as -> Hl. inversion Hl1'; subst.
      destruct (IH l1') as [-> ->]; auto.
      rewrite <- Hl. now constructor.
Qed.

Lemma campus_differs a b : negb (a =? b) = true <-> a <> b.
Proof. now rewrite negb_true_iff, String.eqb_neq. Qed.

Lemma campus_same a b : negb (a =? b) = false <-> a = b.
Proof. now rewrite negb_false_iff, String.eqb_eq. Qed.

(** ** Creation of a session *)




(** ** Jury and student routes *)

(** C10. On the two add routes the name is checked first: an authenticated
    request with an absent or empty name is answered 400 with the state
    untouched, whatever the session id in the path, be it unknown (404
    otherwise) or the id of another campus's session (403 otherwise). *)
Theorem add_checks_name_first (req : Request) (w : World) (user : User) :
  session_user req = Some user ->
  (field "juryName" (body req) = None \/ field "juryName" (body req) = Some "" ->
   postJuries req w =
     ({| status := 400; json := JError "Jury name is required." |}, w))
  /\
  (field "studentName" (body req) = None \/ field "studentName" (body req) = Some "" ->
   postStudents req w =
     ({| status := 400; json := JError "Student name is required." |}, w)).
Proof.
  intros Hu. unfold postJuries, postStudents, isAuthenticated. rewrite Hu.
  split; intros H; apply truthy_false in H; now rewrite H.
Qed.

(** An unknown id, an id of Paris's session, both from Toulouse. *)
Lemma add_checks_name_first_witness :
  postJuries (request toulouse "no-such-session" []) world0
  = ({| status := 400; json := JError "Jury name is required." |}, world0)
  /\ postStudents (request toulouse idParis [("studentName", "")]) world0
     = ({| status := 400; json := JError "Student name is required." |}, world0).
Proof.
  split.
  - apply (proj1 (add_checks_name_first
                    (request toulouse "no-such-session" []) world0 toulouse eq_refl)).
    now left.
  - apply (proj2 (add_checks_name_first
                    (request toulouse idParis [("studentName", "")]) world0
                    toulouse eq_refl)).
    now right.
Defined.

(** The three outcomes of the shared part of the four routes. *)
Lemma onOwnSession_unknown user sid f message w :
  findSession (Some sid) (sessions (dbData w)) = None ->
  onOwnSession user sid f message w =
    ({| status := 404; json := JError "Session not found." |}, w).
Proof. intros H. unfold onOwnSession. now rewrite H. Qed.

Lemma onOwnSession_foreign user sid f message w s :
  findSession (Some sid) (sessions (dbData w)) = Some s ->
  Session.campus s <> user_campus user ->
  onOwnSession user sid f message w =
    ({| status := 403;
        json := JError "Forbidden - Session belongs to another campus." |}, w).
Proof.
  intros H Hc. unfold onOwnSession. rewrite H.
  apply campus_differs in Hc. now rewrite Hc.
Qed.

Lemma onOwnSession_own user sid f message w s :
  findSession (Some sid) (sessions (dbData w)) = Some s ->
  Session.campus s = user_campus user ->
  exists l1 l2,
    FirstWithId sid s (sessions (dbData w)) l1 l2 /\
    onOwnSession user sid f message w =
      ({| status := 200; json := JMessageSession message (f s) |},
       saved {| sessions := l1 ++ f s :: l2;
                submissions := submissions (dbData w) |}).
Proof.
  intros H Hc. destruct (findSession_first _ _ _ H) as (l1 & l2 & F).
  exists l1, l2. split; [exact F|].
  unfold onOwnSession. rewrite H.
  apply campus_same in Hc. rewrite Hc.
  now rewrite (first_mutateFound _ _ _ _ _ f F).
Qed.

Lemma filter_differs_spec (j : string) (l : list string) :
  ~ In j (filter (differs (Some j)) l)
  /\ (forall x, x <> j -> count_occ string_dec (filter (differs (Some j)) l) x
                          = count_occ string_dec l x)
  /\ (~ In j l -> filter (differs (Some j)) l = l).
Proof.
  induction l as [|y l (IH1 & IH2 & IH3)]; simpl.
  - repeat split; auto.
  - destruct (y =? j) eqn:E; simpl.
    + apply String.eqb_eq in E. subst y. repeat split; auto.
      * intros x Hx. destruct (string_dec j x); [congruence|auto].
      * tauto.
    + apply String.eqb_neq in E. repeat split.
      * simpl. tauto.
      * intros x Hx. simpl. destruct (string_dec y x); auto.
      * intros H. f_equal. tauto.
Qed.

Lemma filter_differs_undefined (l : list string) : filter (differs None) l = l.
Proof. induction l; simpl; congruence. Qed.

Lemma filterJuries_absent (v : option string) (s : Session.t) :
  (forall j, v = Some j -> ~ In j (Session.juries s)) -> filterJuries v s = s.
Proof.
  intros H. destruct s as [i n c js ss]. unfold filterJuries. simpl in *. f_equal.
  destruct v as [j|].
  - apply filter_differs_spec. now apply H.
  - apply filter_differs_undefined.
Qed.

Lemma filterStudents_absent (v : option string) (s : Session.t) :
  (forall j, v = Some j -> ~ In j (Session.students s)) -> filterStudents v s = s.
Proof.
  intros H. destruct s as [i n c js ss]. unfold filterStudents. simpl in *. f_equal.
  destruct v as [j|].
  - apply filter_differs_spec. now apply H.
  - apply filter_differs_undefined.
Qed.

(** C5. On a session of the caller's campus, removing a jury (a student)
    answers 200 and leaves in the session's array exactly the entries that
    differ from the given name: every occurrence of the name is gone, every
    other entry is kept with its multiplicity and order, and nothing else in
    the session or in the array of sessions changes.  When the name is not in
    the array (or no name is given), the session and the array of sessions are
    unchanged, and the answer is still 200. *)
Theorem remove_deletes_every_entry (req : Request) (w : World) (user : User)
    (s : Session.t) :
  session_user req = Some user ->
  findSession (Some (params_id req)) (sessions (dbData w)) = Some s ->
  Session.campus s = user_campus user ->
  exists l1 l2,
    FirstWithId (params_id req) s (sessions (dbData w)) l1 l2 /\
    (exists s',
       deleteJuries req w =
         ({| status := 200; json := JMessageSession "Jury deleted successfully." s' |},
          saved {| sessions := l1 ++ s' :: l2;
                   submissions := submissions (dbData w) |})
       /\ s' = {| Session.id := Session.id s; Session.name := Session.name s;
                  Session.campus := Session.campus s;
                  Session.juries :=
                    filter (differs (field "juryName" (body req))) (Session.juries s);
                  Session.students := Session.students s |}
       /\ (forall j, field "juryName" (body req) = Some j ->
             ~ In j (Session.juries s')
             /\ forall x, x <> j ->
                  count_occ string_dec (Session.juries s') x
                  = count_occ string_dec (Session.juries s) x)
       /\ ((forall j, field "juryName" (body req) = Some j ->
              ~ In j (Session.juries s)) ->
           s' = s /\ l1 ++ s' :: l2 = sessions (dbData w)))
    /\
    (exists s',
       deleteStudents req w =
         ({| status := 200;
             json := JMessageSession "Student deleted successfully." s' |},
          saved {| sessions := l1 ++ s' :: l2;
                   submissions := submissions (dbData w) |})
       /\ s' = {| Session.id := Session.id s; Session.name := Session.name s;
                  Session.campus := Session.campus s;
                  Session.juries := Session.juries s;
                  Session.students :=
                    filter (differs (field "studentName" (body req)))
                      (Session.students s) |}
       /\ (forall j, field "studentName" (body req) = Some j ->
             ~ In j (Session.students s')
             /\ forall x, x <> j ->
                  count_occ string_dec (Session.students s') x
                  = count_occ string_dec (Session.students s) x)
       /\ ((forall j, field "studentName" (body req) = Some j ->
              ~ In j (Session.students s)) ->
           s' = s /\ l1 ++ s' :: l2 = sessions (dbData w))).
Proof.
  intros Hu Hf Hc.
  destruct (findSession_first _ _ _ Hf) as (l1 & l2 & F).
  exists l1, l2. split; [exact F|].
  assert (Hl : l1 ++ s :: l2 = sessions (dbData w)) by now destruct F.
  unfold deleteJuries, deleteStudents, isAuthenticated. rewrite Hu.
  unfold onOwnSession. rewrite Hf.
  apply campus_same in Hc. rewrite Hc. simpl.
  rewrite !(first_mutateFound _ _ _ _ _ _ F).
  split.
  - exists (filterJuries (field "juryName" (body req)) s).
    split; [reflexivity|]. split; [reflexivity|]. split.
    + intros j ->. simpl. split; apply filter_differs_spec.
    + intros H. rewrite (filterJuries_absent _ _ H). auto.
  - exists (filterStudents (field "studentName" (body req)) s).
    split; [reflexivity|]. split; [reflexivity|]. split.
    + intros j ->. simpl. split; apply filter_differs_spec.
    + intros H. rewrite (filterStudents_absent _ _ H). auto.
Qed.

Lemma first_C22 : FirstWithId idC22 sessionC22 (sessions db0) [sessionParis] [].
Proof.
  apply (first_with_id idC22 sessionC22 [sessionParis] []); [reflexivity|].
  repeat constructor. discriminate.
Qed.

(** Hugo sits twice in the jury of C#22 and both entries go; Zoe is no
    student of it and the removal answers 200 all the same. *)
Lemma remove_deletes_every_entry_witness :
  deleteJuries (request toulouse idC22 [("juryName", "Hugo")]) world0
  = ({| status := 200;
        json := JMessageSession "Jury deleted successfully." sessionC22_without_Hugo |},
     saved {| sessions := [sessionParis; sessionC22_without_Hugo];
              submissions := [submissionFabien] |})
  /\ deleteStudents (request toulouse idC22 [("studentName", "Zoe")]) world0
     = ({| status := 200;
           json := JMessageSession "Student deleted successfully." sessionC22 |},
        world0).
Proof.
  split.
  - destruct (remove_deletes_every_entry
                (request toulouse idC22 [("juryName", "Hugo")]) world0 toulouse
                sessionC22 eq_refl eq_refl eq_refl)
      as (l1 & l2 & F & (s' & Hr & Hs & _) & _).
    destruct (first_unique _ _ _ _ _ _ _ F first_C22) as [-> ->].
    rewrite Hr, Hs. reflexivity.
  - destruct (remove_deletes_every_entry
                (request toulouse idC22 [("studentName", "Zoe")]) world0 toulouse
                sessionC22 eq_refl eq_refl eq_refl)
      as (l1 & l2 & _ & _ & (s' & Hr & _ & _ & Hsame)).
    rewrite Hr. destruct Hsame as [-> ->].
    + intros j [= <-]. simpl. intros [H|[]]. discriminate H.
    + reflexivity.
Defined.

(** ** Deletion of a session *)

Lemma filter_other_session (sid : string) (l : list Submission.t) :
  (forall sub,
     In sub (filter (fun sub => negb (Submission.sessionId sub =? sid)) l) <->
     In sub l /\ Submission.sessionId sub <> sid)
  /\ filter (fun sub => Submission.sessionId sub =? sid)
       (filter (fun sub => negb (Submission.sessionId sub =? sid)) l) = [].
Proof.
  split.
  - intros sub. rewrite filter_In. now rewrite campus_differs.
  - induction l as [|x l IH]; simpl; auto.
    destruct (Submission.sessionId x =? sid) eqn:E; simpl; auto.
    now rewrite E.
Qed.

(** C2. For an authenticated request: when no stored session has the id of
    the path the answer is 404, when the session found belongs to another
    campus the answer is 403, and the state is untouched in both cases;
    otherwise the answer is 200, that session alone leaves the array of
    sessions, the submissions kept are exactly those of the other session
    ids, so that none refers to the deleted id, and the document is saved. *)
Theorem deleteSession_spec (req : Request) (w : World) (user : User) :
  session_user req = Some user ->
  ((forall s, In s (sessions (dbData w)) -> Session.id s <> params_id req) ->
   deleteSession req w =
     ({| status := 404; json := JError "Session not found." |}, w))
  /\
  (forall s,
     findSession (Some (params_id req)) (sessions (dbData w)) = Some s ->
     Session.campus s <> user_campus user ->
     deleteSession req w =
       ({| status := 403;
           json := JError "Forbidden - Session belongs to another campus." |}, w))
  /\
  (forall s,
     findSession (Some (params_id req)) (sessions (dbData w)) = Some s ->
     Session.campus s = user_campus user ->
     exists l1 l2 kept,
       FirstWithId (params_id req) s (sessions (dbData w)) l1 l2
       /\ deleteSession req w =
            ({| status := 200; json := JMessage "Session deleted successfully." |},
             saved {| sessions := l1 ++ l2; submissions := kept |})
       /\ (forall sub,
             In sub kept <->
             In sub (submissions (dbData w))
             /\ Submission.sessionId sub <> params_id req)
       /\ filter (fun sub => Submission.sessionId sub =? params_id req) kept = []).
Proof.
  intros Hu. unfold deleteSession, isAuthenticated. rewrite Hu.
  split; [|split].
  - intros H. apply findSession_none in H.
    destruct (findIndex _ _) as [i|] eqn:E; auto.
    exfalso. clear Hu. revert i E H. simpl.
    induction (sessions (dbData w)) as [|x l IH]; simpl; [discriminate|].
    destruct (Session.id x =? params_id req); [discriminate|].
    intros i. destruct (findIndex _ l) as [k|]; [|discriminate].
    intros _ H. now apply (IH k).
  - intros s Hf Hc. destruct (findSession_first _ _ _ Hf) as (l1 & l2 & F).
    rewrite (first_findIndex _ _ _ _ _ F), (first_nth_error _ _ _ _ _ F).
    apply campus_differs in Hc. now rewrite Hc.
  - intros s Hf Hc. destruct (findSession_first _ _ _ Hf) as (l1 & l2 & F).
    exists l1, l2.
    exists (filter (fun sub => negb (Submission.sessionId sub =? params_id req))
              (submissions (dbData w))).
    split; [exact F|].
    rewrite (first_findIndex _ _ _ _ _ F), (first_nth_error _ _ _ _ _ F).
    apply campus_same in Hc. rewrite Hc. simpl.
    rewrite (first_splice1 _ _ _ _ _ F).
    split; [reflexivity|]. apply filter_other_session.
Qed.

(** Toulouse deletes C#22: the session and its one submission go. *)
Lemma deleteSession_spec_witness :
  deleteSession (request toulouse "no-such-session" []) world0
  = ({| status := 404; json := JError "Session not found." |}, world0)
  /\ deleteSession (request toulouse idParis []) world0
     = ({| status := 403;
           json := JError "Forbidden - Session belongs to another campus." |},
        world0)
  /\ deleteSession (request toulouse idC22 []) world0
     = ({| status := 200; json := JMessage "Session deleted successfully." |},
        saved {| sessions := [sessionParis]; submissions := [] |}).
Proof.
  split; [|split].
  - apply (proj1 (deleteSession_spec (request toulouse "no-such-session" [])
                    world0 toulouse eq_refl)).
    simpl. intros s [<-|[<-|[]]]; discriminate.
  - apply (proj1 (proj2 (deleteSession_spec (request toulouse idParis [])
                           world0 toulouse eq_refl)) sessionParis eq_refl).
    discriminate.
  - destruct (proj2 (proj2 (deleteSession_spec (request toulouse idC22 [])
                              world0 toulouse eq_refl)) sessionC22 eq_refl eq_refl)
      as (l1 & l2 & kept & F & Hr & Hkept & _).
    destruct (first_unique _ _ _ _ _ _ _ F first_C22) as [-> ->].
    rewrite Hr. destruct kept as [|sub kept]; [reflexivity|].
    destruct (proj1 (Hkept sub) (or_introl eq_refl)) as [[<-|[]] Hsid].
    now elim Hsid.
Defined.

(** ** Submission of an evaluation *)

Lemma includes_listed l v : includes l v = true <-> listed l v.
Proof.
  unfold listed. destruct v as [x|]; simpl.
  - rewrite existsb_exists. split.
    + intros (y & Hy & E). apply String.eqb_eq in E. subst y. eauto.
    + intros (y & [= <-] & Hy). exists x. split; auto. apply String.eqb_refl.
  - split; [discriminate|]. intros (y & H & _). discriminate H.
Qed.

Lemma includes_not_listed l v : includes l v = false <-> ~ listed l v.
Proof.
  rewrite <- includes_listed. destruct (includes l v); split; congruence.
Qed.

Lemma findSession_no_session v l :
  (forall s, In s l -> v <> Some (Session.id s)) -> findSession v l = None.
Proof.
  intros H. destruct v as [sid|]; [|reflexivity].
  apply findSession_none. intros s Hs E. apply (H s Hs). now rewrite E.
Qed.

Lemma submitEvaluation_accepts parseFloat req w user s :
  session_user req = Some user ->
  findSession (field "sessionId" (body req)) (sessions (dbData w)) = Some s ->
  Session.campus s = user_campus user ->
  listed (Session.juries s) (field "juryName" (body req)) ->
  listed (Session.students s) (field "studentName" (body req)) ->
  submitEvaluation parseFloat req w =
    ({| status := 200; json := JMessage "Evaluation submitted successfully!" |},
     saved {| sessions := sessions (dbData w);
              submissions :=
                submissions (dbData w) ++ [newSubmission parseFloat (body req)] |}).
Proof.
  intros Hu Hf Hc Hj Hs. unfold submitEvaluation, isAuthenticated.
  rewrite Hu, Hf. apply campus_same in Hc. apply includes_listed in Hj, Hs.
  now rewrite Hc, Hj, Hs.
Qed.

(** C3. For an authenticated request: no session with the given sessionId,
    400; session of another campus, 403; jury name not in the session's jury
    array, or student name not in its student array, 400; the state is
    untouched in each of these cases.  Otherwise the answer is 200 and the
    state is the saved document with exactly one submission appended. *)
Theorem submitEvaluation_spec (parseFloat : option string -> float)
    (req : Request) (w : World) (user : User) :
  session_user req = Some user ->
  ((forall s, In s (sessions (dbData w)) ->
      field "sessionId" (body req) <> Some (Session.id s)) ->
   submitEvaluation parseFloat req w =
     ({| status := 400; json := JError "Session does not exist." |}, w))
  /\
  (forall s,
     findSession (field "sessionId" (body req)) (sessions (dbData w)) = Some s ->
     (Session.campus s <> user_campus user ->
      submitEvaluation parseFloat req w =
        ({| status := 403;
            json := JError "Forbidden - Session belongs to another campus." |}, w))
     /\
     (Session.campus s = user_campus user ->
      (~ listed (Session.juries s) (field "juryName" (body req)) ->
       submitEvaluation parseFloat req w =
         ({| status := 400; json := JError "Jury does not exist in this session." |},
          w))
      /\
      (listed (Session.juries s) (field "juryName" (body req)) ->
       ~ listed (Session.students s) (field "studentName" (body req)) ->
       submitEvaluation parseFloat req w =
         ({| status := 400;
             json := JError "Student does not exist in this session." |}, w))
      /\
      (listed (Session.juries s) (field "juryName" (body req)) ->
       listed (Session.students s) (field "studentName" (body req)) ->
       submitEvaluation parseFloat req w =
         ({| status := 200; json := JMessage "Evaluation submitted successfully!" |},
          saved {| sessions := sessions (dbData w);
                   submissions :=
                     submissions (dbData w)
                     ++ [newSubmission parseFloat (body req)] |})))).
Proof.
  intros Hu. split.
  - intros H. unfold submitEvaluation, isAuthenticated.
    now rewrite Hu, (findSession_no_session _ _ H).
  - intros s Hf. split; [|intros Hc; split; [|split]].
    + intros Hc. unfold submitEvaluation, isAuthenticated. rewrite Hu, Hf.
      apply campus_differs in Hc. now rewrite Hc.
    + intros H. unfold submitEvaluation, isAuthenticated. rewrite Hu, Hf.
      apply campus_same in Hc. apply includes_not_listed in H.
      now rewrite Hc, H.
    + intros Hj H. unfold submitEvaluation, isAuthenticated. rewrite Hu, Hf.
      apply campus_same in Hc. apply includes_listed in Hj.
      apply includes_not_listed in H. now rewrite Hc, Hj, H.
    + intros Hj Hs. now apply (submitEvaluation_accepts _ _ _ user s).
Qed.

Lemma listed_Hugo : listed (Session.juries sessionC22) (Some "Hugo").
Proof. exists "Hugo". simpl. auto. Qed.

Lemma listed_Fabien : listed (Session.students sessionC22) (Some "Fabien").
Proof. exists "Fabien". simpl. auto. Qed.

(** Toulouse submits the payload of the test suite for Fabien; for a session
    that does not exist; for a session of Paris; and for a jury that is not
    in the session. *)
Lemma submitEvaluation_spec_witness :
  submitEvaluation parseFloat_digits (request toulouse "" evaluationBody) world0
  = ({| status := 200; json := JMessage "Evaluation submitted successfully!" |},
     saved {| sessions := [sessionParis; sessionC22];
              submissions := [submissionFabien; submissionFabien] |})
  /\ submitEvaluation parseFloat_digits
       (request toulouse "" [("sessionId", "no-such-session")]) world0
     = ({| status := 400; json := JError "Session does not exist." |}, world0)
  /\ submitEvaluation parseFloat_digits
       (request toulouse "" [("sessionId", idParis); ("juryName", "Ines");
                             ("studentName", "Noe")]) world0
     = ({| status := 403;
           json := JError "Forbidden - Session belongs to another campus." |},
        world0)
  /\ submitEvaluation parseFloat_digits
       (request toulouse "" [("sessionId", idC22); ("juryName", "Ines");
                             ("studentName", "Fabien")]) world0
     = ({| status := 400; json := JError "Jury does not exist in this session." |},
        world0).
Proof.
  split; [|split; [|split]].
  - apply (proj2 (proj2 (proj2 (proj2
             (submitEvaluation_spec parseFloat_digits
                (request toulouse "" evaluationBody) world0 toulouse eq_refl)
             sessionC22 eq_refl) eq_refl))).
    + exact listed_Hugo.
    + exact listed_Fabien.
  - apply (proj1 (submitEvaluation_spec parseFloat_digits
                    (request toulouse "" [("sessionId", "no-such-session")])
                    world0 toulouse eq_refl)).
    simpl. intros s [<-|[<-|[]]]; discriminate.
  - apply (proj1 (proj2
             (submitEvaluation_spec parseFloat_digits
                (request toulouse "" [("sessionId", idParis); ("juryName", "Ines");
                                      ("studentName", "Noe")])
                world0 toulouse eq_refl)
             sessionParis eq_refl)).
    discriminate.
  - apply (proj1 (proj2 (proj2
             (submitEvaluation_spec parseFloat_digits
                (request toulouse "" [("sessionId", idC22); ("juryName", "Ines");
                                      ("studentName", "Fabien")])
                world0 toulouse eq_refl)
             sessionC22 eq_refl) eq_refl)).
    intros (x & [= <-] & H). simpl in H.
    destruct H as [H|[H|[H|[]]]]; discriminate H.
Defined.

(** C6. When the session, campus, jury and student checks pass, the answer is
    200 whatever the eighteen score fields hold, and each score of the
    submission appended is what parseFloat makes of its field: where that is
    NaN, NaN is stored. *)
Theorem scores_parsed_unchecked (parseFloat : option string -> float)
    (req : Request) (w : World) (user : User) (s : Session.t) :
  session_user req = Some user ->
  findSession (field "sessionId" (body req)) (sessions (dbData w)) = Some s ->
  Session.campus s = user_campus user ->
  listed (Session.juries s) (field "juryName" (body req)) ->
  listed (Session.students s) (field "studentName" (body req)) ->
  exists sub,
    submitEvaluation parseFloat req w =
      ({| status := 200; json := JMessage "Evaluation submitted successfully!" |},
       saved {| sessions := sessions (dbData w);
                submissions := submissions (dbData w) ++ [sub] |})
    /\ (forall c,
          score c (Submission.scores sub) =
          parseFloat (field (criterionName c) (body req)))
    /\ (forall c,
          parseFloat (field (criterionName c) (body req)) = nan ->
          score c (Submission.scores sub) = nan).
Proof.
  intros Hu Hf Hc Hj Hs. exists (newSubmission parseFloat (body req)).
  assert (Hscore : forall c,
             score c (Submission.scores (newSubmission parseFloat (body req))) =
             parseFloat (field (criterionName c) (body req)))
    by (intros c; destruct c; reflexivity).
  split; [|split].
  - now apply (submitEvaluation_accepts _ _ _ user s).
  - exact Hscore.
  - intros c H. now rewrite Hscore.
Qed.

(** The payload of the test suite has no projectFunctionality: the
    submission is accepted and holds NaN there, and 5 where "5" was sent. *)
Lemma scores_parsed_unchecked_witness :
  exists sub,
    submitEvaluation parseFloat_digits (request toulouse "" evaluationBody) world0
    = ({| status := 200; json := JMessage "Evaluation submitted successfully!" |},
       saved {| sessions := [sessionParis; sessionC22];
                submissions := [submissionFabien; sub] |})
    /\ score ProjectFunctionality (Submission.scores sub) = nan
    /\ score AlgorithmsCode (Submission.scores sub) = 5%float.
Proof.
  destruct (scores_parsed_unchecked parseFloat_digits
              (request toulouse "" evaluationBody) world0 toulouse sessionC22
              eq_refl eq_refl eq_refl listed_Hugo listed_Fabien)
    as (sub & Hr & Hscore & Hnan).
  exists sub. split; [exact Hr|]. split.
  - apply Hnan. reflexivity.
  - rewrite Hscore. reflexivity.
Defined.

(** ** Isolation of the campuses *)

(** Toulouse posts a jury without a name to the session of Paris. *)
Example nameless_add_on_foreign_session :
  findSession (Some idParis) (sessions (dbData world0)) = Some sessionParis
  /\ postJuries (request toulouse idParis []) world0
     = ({| status := 400; json := JError "Jury name is required." |}, world0).
Proof. split; reflexivity. Qed.

(** C4, as stated, fails: Toulouse posts a jury without a name to the session
    of Paris and is answered 400, not 403. *)
Lemma isolation_as_specified_fails :
  ~ isolation_as_specified parseFloat_digits "Paris" "Toulouse" world0.
Proof.
  intros [_ H].
  specialize (H AddJury (request toulouse idParis []) toulouse sessionParis
                eq_refl eq_refl eq_refl eq_refl).
  discriminate H.
Qed.

(** C4, amended. For distinct campuses A and B and every state: a session of
    campus A is in no listing made for B; and a delete, add or remove jury,
    add or remove student, or submit request from B that names a session of A
    leaves the state untouched and is answered 403, except an add request
    with an absent or empty name, which is answered 400. *)
Theorem isolation_holds (parseFloat : option string -> float) (A B : string)
    (w : World) :
  A <> B -> isolation parseFloat A B w.
Proof.
  intros HAB. split.
  - intros s Hs req u Hu Hc.
    exists (filter (fun s => Session.campus s =? B) (sessions (dbData w))).
    unfold getSessions, isAuthenticated. rewrite Hu, Hc. split; [reflexivity|].
    rewrite filter_In, String.eqb_eq. intros [_ E]. congruence.
  - intros m req u s Hu Hc Hf Hs.
    assert (Hne : Session.campus s <> user_campus u) by congruence.
    destruct m; simpl in *.
    + split; [intros _|discriminate].
      unfold deleteSession, isAuthenticated. rewrite Hu.
      destruct (findSession_first _ _ _ Hf) as (l1 & l2 & F).
      rewrite (first_findIndex _ _ _ _ _ F), (first_nth_error _ _ _ _ _ F).
      apply campus_differs in Hne. now rewrite Hne.
    + unfold postJuries, isAuthenticated. rewrite Hu. split; intros ->; simpl.
      * now apply (onOwnSession_foreign _ _ _ _ _ s).
      * auto.
    + split; [intros _|discriminate].
      unfold deleteJuries, isAuthenticated. rewrite Hu.
      now apply (onOwnSession_foreign _ _ _ _ _ s).
    + unfold postStudents, isAuthenticated. rewrite Hu. split; intros ->; simpl.
      * now apply (onOwnSession_foreign _ _ _ _ _ s).
      * auto.
    + split; [intros _|discriminate].
      unfold deleteStudents, isAuthenticated. rewrite Hu.
      now apply (onOwnSession_foreign _ _ _ _ _ s).
    + split; [intros _|discriminate].
      unfold submitEvaluation, isAuthenticated. rewrite Hu, Hf.
      apply campus_differs in Hne. now rewrite Hne.
Qed.

Lemma isolation_holds_witness : isolation parseFloat_digits "Paris" "Toulouse" world0.
Proof. apply isolation_holds. discriminate. Defined.

(** ** The campus of a session never changes *)

Lemma onOwnSession_owners user sid f message w :
  (forall s, Session.id (f s) = Session.id s) ->
  (forall s, Session.campus (f s) = Session.campus s) ->
  owners (snd (onOwnSession user sid f message w)) = owners w.
Proof.
  intros Hi Hc. unfold onOwnSession.
  destruct (findSession _ _) as [s|] eqn:Hf; [|reflexivity].
  destruct (findSession_first _ _ _ Hf) as (l1 & l2 & F).
  destruct (negb _); [reflexivity|]. simpl.
  rewrite (first_mutateFound _ _ _ _ _ f F).
  unfold owners. simpl. destruct F as [l1 l2 _ _].
  rewrite !map_app. simpl. now rewrite Hi, Hc.
Qed.

(** C8. Whatever the route, the request and the state, the array of sessions
    after the request holds the same sessions, each with the identifier and
    the campus it had before, in the same order; but for a successful
    creation, which appends one session of the caller's campus, and a
    successful deletion, which takes one session of the caller's campus out.
    No route changes the campus of a session. *)
Theorem campus_immutable (parseFloat : option string -> float) (r : Route)
    (req : Request) (w : World) :
  owners (snd (app parseFloat r req w)) = owners w
  \/ (exists uuid u,
        r = POST_sessions uuid /\ session_user req = Some u
        /\ owners (snd (app parseFloat r req w))
           = owners w ++ [(uuid, user_campus u)])
  \/ (exists u l1 l2,
        r = DELETE_sessions_id /\ session_user req = Some u
        /\ owners w = l1 ++ (params_id req, user_campus u) :: l2
        /\ owners (snd (app parseFloat r req w)) = l1 ++ l2).
Proof.
  destruct r; simpl.
  - left. unfold getSessions, isAuthenticated. now destruct (session_user req).
  - unfold postSessions, isAuthenticated.
    destruct (session_user req) as [u|] eqn:Hu; [|now left].
    destruct (negb _); [now left|].
    right; left. exists uuid, u. repeat split.
    unfold owners. simpl. now rewrite map_app.
  - unfold deleteSession, isAuthenticated.
    destruct (session_user req) as [u|] eqn:Hu; [|now left].
    destruct (findIndex _ _) as [i|] eqn:Hi; [|now left].
    destruct (nth_error _ _) as [s|] eqn:Hn; [|now left].
    destruct (negb _) eqn:Hc; [now left|].
    apply campus_same in Hc. right; right.
    assert (Hf : findSession (Some (params_id req)) (sessions (dbData w)) = Some s).
    { clear Hc. simpl. revert i Hi Hn.
      induction (sessions (dbData w)) as [|x l IH]; simpl; [discriminate|].
      intros i. destruct (Session.id x =? params_id req).
      - intros [= <-]. simpl. auto.
      - destruct (findIndex _ l) as [k|]; [|discriminate].
        intros [= <-]. simpl. now apply IH. }
    destruct (findSession_first _ _ _ Hf) as (l1 & l2 & F).
    rewrite (first_findIndex _ _ _ _ _ F) in Hi. injection Hi as <-.
    exists u.
    exists (map (fun s => (Session.id s, Session.campus s)) l1).
    exists (map (fun s => (Session.id s, Session.campus s)) l2).
    split; [reflexivity|]. split; [reflexivity|].
    unfold owners. simpl. rewrite (first_splice1 _ _ _ _ _ F).
    destruct F as [l1 l2 Hid _]. rewrite !map_app. simpl.
    now rewrite Hid, Hc.
  - left. unfold postJuries, isAuthenticated.
    destruct (session_user req); [|reflexivity].
    destruct (negb _); [reflexivity|]. now apply onOwnSession_owners.
  - left. unfold deleteJuries, isAuthenticated.
    destruct (session_user req); [|reflexivity]. now apply onOwnSession_owners.
  - left. unfold postStudents, isAuthenticated.
    destruct (session_user req); [|reflexivity].
    destruct (negb _); [reflexivity|]. now apply onOwnSession_owners.
  - left. unfold deleteStudents, isAuthenticated.
    destruct (session_user req); [|reflexivity]. now apply onOwnSession_owners.
  - left. unfold submitEvaluation, isAuthenticated.
    destruct (session_user req); [|reflexivity].
    destruct (findSession _ _); [|reflexivity].
    repeat (destruct (negb _); [reflexivity|]). reflexivity.
  - left. unfold resultsWithAverages, isAuthenticated.
    now destruct (session_user req).
Qed.

(** ** Aggregation: the object [aggregates] *)

Lemma own_set_same o k a : own k (set o k a) = Some a.
Proof.
  induction o as [|[k' a'] o IH]; simpl.
  - now rewrite String.eqb_refl.
  - destruct (k' =? k) eqn:E; simpl; now rewrite E.
Qed.

Lemma set_set o k a b : set (set o k a) k b = set o k b.
Proof.
  induction o as [|[k' a'] o IH]; simpl.
  - now rewrite String.eqb_refl.
  - destruct (k' =? k) eqn:E; simpl; rewrite E; congruence.
Qed.

Lemma get_own o k a : own k o = Some a -> get o k = Own a.
Proof. intros H. unfold get. now rewrite H. Qed.

(** The loop body either leaves the object alone (inherited key) or sets the
    key to an aggregate that has counted the submission. *)
Lemma forEachBody_cases o sub :
  (get o (key sub) = Inherited /\ forEachBody o sub = o)
  \/ (get o (key sub) = Undefined
      /\ forEachBody o sub = set o (key sub) (accumulate (emptyAgg sub) sub))
  \/ (exists agg, own (key sub) o = Some agg
      /\ forEachBody o sub = set o (key sub) (accumulate agg sub)).
Proof.
  unfold forEachBody. destruct (get o (key sub)) as [|agg|] eqn:G.
  - right; left. split; [reflexivity|].
    rewrite (get_own _ _ _ (own_set_same o (key sub) (emptyAgg sub))).
    apply set_set.
  - right; right. exists agg. unfold get in G.
    destruct (own (key sub) o) as [a|] eqn:E.
    + injection G as ->. rewrite (get_own _ _ _ E). auto.
    + destruct (inherited (key sub)); discriminate G.
  - left. rewrite G. auto.
Qed.


Lemma fold_left_invariant {A B} (P : A -> Prop) (f : A -> B -> A) l :
  (forall a b, P a -> P (f a b)) -> forall a, P a -> P (fold_left f l a).
Proof. intros Hf. induction l as [|b l IH]; simpl; auto. Qed.


(** ** Aggregation: rows, order and averages *)

(** Both submissions of [dbCollision] are Toulouse's and their pairs differ,
    yet their keys are the same and one row stands for the two. *)
Example collision_rows :
  map pairOf (rawSubmissionsOf "Toulouse" dbCollision) = [("a", "b_c"); ("a_b", "c")]
  /\ map key (rawSubmissionsOf "Toulouse" dbCollision) = ["a_b_c"; "a_b_c"]
  /\ map rowPair (aggregatedOf (rawSubmissionsOf "Toulouse" dbCollision))
     = [("a", "b_c")].
Proof. repeat split. Qed.


(** *** Pairs and first occurrences *)

Lemma pair_eqb_eq p q : pair_eqb p q = true <-> p = q.
Proof.
  destruct p as [a b], q as [c d]. unfold pair_eqb. simpl.
  rewrite andb_true_iff, !String.eqb_eq. split.
  - intros [-> ->]. reflexivity.
  - intros [= -> ->]. auto.
Qed.

Lemma pair_eqb_neq p q : pair_eqb p q = false <-> p <> q.
Proof.
  rewrite <- pair_eqb_eq. destruct (pair_eqb p q); split; congruence.
Qed.


Lemma pair_dec (p q : Pair) : {p = q} + {p <> q}.
Proof.
  destruct (pair_eqb p q) eqn:E.
  - left. now apply pair_eqb_eq.
  - right. now apply pair_eqb_neq.
Qed.

Lemma firstOccurrences_In p l : In p (firstOccurrences l) <-> In p l.
Proof.
  induction l as [|q l IH]; simpl; [tauto|].
  rewrite filter_In, IH, negb_true_iff, pair_eqb_neq.
  destruct (pair_dec p q) as [->|H]; intuition congruence.
Qed.





(** *** Keys *)

Lemma key_pairOf sub : key sub = keyOfPair (pairOf sub).
Proof. reflexivity. Qed.





(** *** The object the loop builds *)

Section Entries.

Variables (f : Pair -> Agg.t) (p0 : Pair).








End Entries.










(** *** Sums and averages, criterion by criterion *)

Lemma score_addScores c a b :
  score c (addScores a b) = (score c a + score c b)%float.
Proof. destruct c; reflexivity. Qed.


Lemma score_average c a :
  score c (Row.avgs (average a))
  = (score c (Agg.sums a) / Number_of_count (Agg.count a))%float.
Proof. destruct c; reflexivity. Qed.



(** *** The raw submissions of a campus *)

Lemma rawSubmissionsOf_In campus db sub :
  In sub (rawSubmissionsOf campus db) <->
  In sub (submissions db)
  /\ exists s, In s (sessions db) /\ Session.campus s = campus
               /\ Session.id s = Submission.sessionId sub.
Proof.
  unfold rawSubmissionsOf, campusSessionsOf. rewrite filter_In.
  apply and_iff_compat_l. rewrite includes_listed. unfold listed. split.
  - intros (x & [= <-] & Hx). apply in_map_iff in Hx.
    destruct Hx as (s & Hs & Hin). apply filter_In in Hin.
    destruct Hin as [Hin Hc]. apply String.eqb_eq in Hc. eauto.
  - intros (s & Hin & Hc & Hs). exists (Submission.sessionId sub).
    split; [reflexivity|]. rewrite <- Hs. apply in_map.
    apply filter_In. split; [exact Hin|]. now apply String.eqb_eq.
Qed.


(** *** The condition on the keys is necessary

    Whatever the submissions, the own properties of [aggregates] have
    distinct keys, each the key of the pair its value records. *)

Lemma own_None_keys o k : own k o = None <-> ~ In k (map fst o).
Proof.
  induction o as [|[k' a] o IH]; simpl; [tauto|].
  destruct (k' =? k) eqn:E.
  - apply String.eqb_eq in E. split; [discriminate|]. tauto.
  - apply String.eqb_neq in E. rewrite IH. tauto.
Qed.

Lemma own_Some_In o k a : own k o = Some a -> In (k, a) o.
Proof.
  induction o as [|[k' a'] o IH]; simpl; [discriminate|].
  destruct (k' =? k) eqn:E.
  - apply String.eqb_eq in E. intros [= ->]. subst. auto.
  - auto.
Qed.

Lemma keys_set o k a :
  map fst (set o k a)
  = map fst o ++ match own k o with Some _ => [] | None => [k] end.
Proof.
  induction o as [|[k' a'] o IH]; simpl; [reflexivity|].
  destruct (k' =? k); simpl; [now rewrite app_nil_r|now rewrite IH].
Qed.

Lemma Forall_set (P : string * Agg.t -> Prop) o k a :
  Forall P o -> P (k, a) -> Forall P (set o k a).
Proof.
  induction o as [|[k' a'] o IH]; simpl; intros H Ha; [auto|].
  inversion H; subst. destruct (k' =? k) eqn:E; constructor; auto.
  apply String.eqb_eq in E. now subst.
Qed.

Lemma aggregatesOf_keyed l :
  NoDup (map fst (aggregatesOf l)) /\ Forall keyed (aggregatesOf l).
Proof.
  unfold aggregatesOf.
  apply (fold_left_invariant
           (fun o => NoDup (map fst o) /\ Forall keyed o)); [|split; constructor].
  intros o sub [ND K].
  destruct (forEachBody_cases o sub) as [[_ ->]|[[G ->]|(agg & Ho & ->)]].
  - auto.
  - unfold get in G. destruct (own (key sub) o) eqn:Ho; [discriminate|].
    destruct (inherited (key sub)) eqn:Hi; [discriminate|]. split.
    + rewrite keys_set, Ho. apply NoDup_app; [exact ND|repeat constructor; auto|].
      intros k Hk [<-|[]]. now apply own_None_keys in Ho.
    + apply Forall_set; [exact K|]. split; [reflexivity|exact Hi].
  - split.
    + rewrite keys_set, Ho. now rewrite app_nil_r.
    + apply Forall_set; [exact K|].
      apply own_Some_In in Ho. rewrite Forall_forall in K.
      exact (K _ Ho).
Qed.

Lemma NoDup_map_injective {A B} (f : A -> B) l x y :
  NoDup (map f l) -> In x l -> In y l -> f x = f y -> x = y.
Proof.
  induction l as [|a l IH]; simpl; [tauto|].
  intros ND Hx Hy E. inversion ND as [|? ? Ha ND']; subst.
  destruct Hx as [->|Hx], Hy as [->|Hy]; auto.
  - elim Ha. rewrite E. now apply in_map.
  - elim Ha. rewrite <- E. now apply in_map.
Qed.

(** The property of C1 holds of a campus and a store only if the keys of the
    campus's submissions are faithful: with the theorem below, exactly then. *)
Lemma aggregation_needs_faithful campus db :
  aggregation_as_specified campus db -> faithful (rawSubmissionsOf campus db).
Proof.
  intros (_ & Hrows & _).
  set (raw := rawSubmissionsOf campus db) in *.
  destruct (aggregatesOf_keyed raw) as [ND K].
  assert (Hkeys : map keyOfPair (firstOccurrences (map pairOf raw))
                  = map fst (aggregatesOf raw)).
  { rewrite <- Hrows. unfold aggregatedOf, Object_values. rewrite !map_map.
    apply map_ext_in. intros e He. rewrite Forall_forall in K.
    symmetry. exact (proj1 (K e He)). }
  split.
  - intros x y Hx Hy E. rewrite !key_pairOf in E.
    apply (NoDup_map_injective keyOfPair (firstOccurrences (map pairOf raw)));
      [now rewrite Hkeys| | |exact E];
      apply firstOccurrences_In; now apply in_map.
  - intros x Hx.
    assert (Hin : In (key x) (map fst (aggregatesOf raw))).
    { rewrite <- Hkeys, key_pairOf. apply in_map, firstOccurrences_In.
      now apply in_map. }
    apply in_map_iff in Hin. destruct Hin as (e & <- & He).
    rewrite Forall_forall in K. exact (proj2 (K e He)).
Qed.



(** The key [__proto__] of student [proto__] in a session named [_] reads
    the prototype of [aggregates]: no row comes out for the submission. *)
Example inherited_key_has_no_row :
  aggregatedOf
    [newSubmission parseFloat_digits
       ([("sessionId", "_"); ("juryName", "Hugo"); ("studentName", "proto__")]
        ++ evaluationPayload)] = [].
Proof. reflexivity. Qed.

(** ** The scenario of the test suite

    From an empty store: create session C#22, add jury Hugo and student
    Fabien, submit the payload, read the results, then remove the jury, the
    student and the session. *)

Example scenario_results :
  exists row,
    json (fst (resultsWithAverages (request toulouse "" []) afterSubmit))
    = JResults [submissionFabien] [row]
        [{| Session.id := idC22; Session.name := "C#22";
            Session.campus := "Toulouse";
            Session.juries := ["Hugo"]; Session.students := ["Fabien"] |}]
    /\ Scores.introductionTeam (Submission.scores submissionFabien) = 1%float
    /\ Row.sessionId row = idC22 /\ Row.studentName row = "Fabien"
    /\ Scores.introductionTeam (Row.avgs row) = 1%float.
Proof.
  eexists. split; [vm_compute; reflexivity|]. repeat split.
Qed.

Example scenario_cleanup :
  afterCleanup = saved {| sessions := []; submissions := [] |}
  /\ getSessions (request toulouse "" []) afterCleanup
     = ({| status := 200; json := JSessions [] |}, afterCleanup).
Proof. split; reflexivity. Qed.

(** * Further properties of the server *)

(** ** The ways a request ends *)

Lemma findIndex_nth_error sid l i :
  findIndex sid l = Some i ->
  exists s, nth_error l i = Some s /\ findSession (Some sid) l = Some s.
Proof.
  simpl. revert i. induction l as [|x l IH]; simpl; [discriminate|].
  intros i. destruct (Session.id x =? sid).
  - intros [= <-]. simpl. eauto.
  - destruct (findIndex sid l) as [k|]; [|discriminate].
    intros [= <-]. simpl. now apply IH.
Qed.

Lemma onOwnSession_outcome parseFloat r req w u f message :
  session_user req = Some u ->
  mutation r req = Some (f, message) ->
  r <> GET_sessions -> r <> GET_resultsWithAverages ->
  Outcome parseFloat r req w
    (fst (onOwnSession u (params_id req) f message w))
    (snd (onOwnSession u (params_id req) f message w)).
Proof.
  intros Hu Hm N1 N2. unfold onOwnSession.
  destruct (findSession _ _) as [s|] eqn:Hf.
  - destruct (negb _) eqn:Hc.
    + apply (Rejected _ _ _ _ u); simpl; auto.
    + apply campus_same in Hc.
      destruct (findSession_first _ _ _ Hf) as (l1 & l2 & F).
      simpl. rewrite (first_mutateFound _ _ _ _ _ f F).
      now apply (Mutated _ _ _ _ u s l1 l2 f message).
  - apply (Rejected _ _ _ _ u); simpl; auto.
Qed.

(** Every request on every route ends in one of the seven ways. *)
Lemma app_outcome parseFloat r req w :
  Outcome parseFloat r req w
    (fst (app parseFloat r req w)) (snd (app parseFloat r req w)).
Proof.
  destruct (session_user req) as [u|] eqn:Hu.
  2: { destruct r; simpl;
       unfold getSessions, postSessions, deleteSession, postJuries, deleteJuries,
         postStudents, deleteStudents, submitEvaluation, resultsWithAverages,
         isAuthenticated; rewrite Hu; now apply Unauthorized. }
  destruct r; simpl.
  - unfold getSessions, isAuthenticated. rewrite Hu. simpl.
    apply (Read _ _ _ _ u); auto.
  - unfold postSessions, isAuthenticated. rewrite Hu.
    destruct (truthy _) eqn:Ht; simpl.
    + apply truthy_value in Ht. destruct Ht as [Hn Hne].
      now apply (Created _ _ _ _ u uuid (value (field "name" (body req)))).
    + apply (Rejected _ _ _ _ u); simpl; auto; discriminate.
  - unfold deleteSession, isAuthenticated. rewrite Hu.
    destruct (findIndex _ _) as [i|] eqn:Hi.
    + destruct (findIndex_nth_error _ _ _ Hi) as (s & Hn & Hf). rewrite Hn.
      destruct (negb _) eqn:Hc.
      * apply (Rejected _ _ _ _ u); simpl; auto; discriminate.
      * apply campus_same in Hc.
        destruct (findSession_first _ _ _ Hf) as (l1 & l2 & F).
        rewrite (first_findIndex _ _ _ _ _ F) in Hi. injection Hi as <-.
        simpl. rewrite (first_splice1 _ _ _ _ _ F).
        now apply (Deleted _ _ _ _ u s l1 l2).
    + apply (Rejected _ _ _ _ u); simpl; auto; discriminate.
  - unfold postJuries, isAuthenticated. rewrite Hu.
    destruct (truthy _) eqn:Ht; simpl.
    + apply onOwnSession_outcome; try discriminate; auto. simpl. now rewrite Ht.
    + apply (Rejected _ _ _ _ u); simpl; auto; discriminate.
  - unfold deleteJuries, isAuthenticated. rewrite Hu.
    apply onOwnSession_outcome; try discriminate; auto.
  - unfold postStudents, isAuthenticated. rewrite Hu.
    destruct (truthy _) eqn:Ht; simpl.
    + apply onOwnSession_outcome; try discriminate; auto. simpl. now rewrite Ht.
    + apply (Rejected _ _ _ _ u); simpl; auto; discriminate.
  - unfold deleteStudents, isAuthenticated. rewrite Hu.
    apply onOwnSession_outcome; try discriminate; auto.
  - unfold submitEvaluation, isAuthenticated. rewrite Hu.
    destruct (findSession _ _) as [s|] eqn:Hf.
    + destruct (negb (_ =? _)) eqn:Hc.
      * apply (Rejected _ _ _ _ u); simpl; auto; discriminate.
      * apply campus_same in Hc.
        destruct (includes (Session.juries s) _) eqn:Hj; simpl.
        -- destruct (includes (Session.students s) _) eqn:Hs; simpl.
           ++ apply includes_listed in Hj, Hs.
              now apply (Submitted _ _ _ _ u s).
           ++ apply (Rejected _ _ _ _ u); simpl; auto; discriminate.
        -- apply (Rejected _ _ _ _ u); simpl; auto; discriminate.
    + apply (Rejected _ _ _ _ u); simpl; auto; discriminate.
  - unfold resultsWithAverages, isAuthenticated. rewrite Hu. simpl.
    apply (Read _ _ _ _ u); auto.
Qed.

Ltac outcome parseFloat r req w :=
  let O := fresh "O" in
  pose proof (app_outcome parseFloat r req w) as O;
  destruct (app parseFloat r req w) as [? ?]; simpl in O |- *; destruct O.

(** X1. A request without a logged-in user is answered 401 on every one of
    the nine routes, and the state is untouched. *)
Theorem unauthenticated_refused (parseFloat : option string -> float)
    (r : Route) (req : Request) (w : World) :
  session_user req = None ->
  app parseFloat r req w =
    ({| status := 401; json := JError "Unauthorized" |}, w).
Proof.
  intros Hu. outcome parseFloat r req w; congruence.
Qed.

Lemma unauthenticated_refused_witness :
  app parseFloat_digits DELETE_sessions_id
    {| session_user := None; params_id := idC22; body := [] |} world0
  = ({| status := 401; json := JError "Unauthorized" |}, world0).
Proof. apply unauthenticated_refused. reflexivity. Defined.





(** X5. Submissions are never altered: after a request on any route the
    array of submissions is the one before, or the one before with the new
    submission appended (an accepted evaluation), or the one before without
    the submissions of the deleted session (a deletion). *)
Theorem submissions_never_altered (parseFloat : option string -> float)
    (r : Route) (req : Request) (w : World) :
  submissions (dbData (snd (app parseFloat r req w))) = submissions (dbData w)
  \/ (r = POST_submitEvaluation
      /\ submissions (dbData (snd (app parseFloat r req w)))
         = submissions (dbData w) ++ [newSubmission parseFloat (body req)])
  \/ (r = DELETE_sessions_id
      /\ submissions (dbData (snd (app parseFloat r req w)))
         = filter (fun sub => negb (Submission.sessionId sub =? params_id req))
             (submissions (dbData w))).
Proof.
  outcome parseFloat r req w; simpl; auto.
Qed.

(** ** Invariants of the store *)

Lemma mutation_keeps r req f message :
  mutation r req = Some (f, message) ->
  forall s, Session.id (f s) = Session.id s
            /\ Session.name (f s) = Session.name s
            /\ Session.campus (f s) = Session.campus s.
Proof.
  destruct r; simpl; try discriminate;
    try (destruct (truthy _); [|discriminate]); intros [= <- _]; auto.
Qed.

Lemma first_In sid s l l1 l2 :
  FirstWithId sid s l l1 l2 -> In s l /\ Session.id s = sid.
Proof.
  intros [l1' l2' Hid _]. split; [|exact Hid]. apply in_or_app. simpl. auto.
Qed.

Lemma findSession_In v l s :
  findSession v l = Some s -> In s l /\ v = Some (Session.id s).
Proof.
  destruct v as [sid|]; [|discriminate]. intros H.
  destruct (findSession_first _ _ _ H) as (l1 & l2 & F).
  destruct (first_In _ _ _ _ _ F) as [Hin <-]. auto.
Qed.

(** X6. Identifiers stay unique: if no two stored sessions share an id, and
    a creation draws an id that no stored session has, then after the
    request, on any route, no two stored sessions share an id. *)
Theorem unique_ids_kept (parseFloat : option string -> float)
    (r : Route) (req : Request) (w : World) :
  uniqueIds (dbData w) ->
  (forall uuid, r = POST_sessions uuid ->
     ~ In uuid (map Session.id (sessions (dbData w)))) ->
  uniqueIds (dbData (snd (app parseFloat r req w))).
Proof.
  unfold uniqueIds. intros ND Hfresh.
  outcome parseFloat r req w; simpl; auto.
  - rewrite map_app. simpl. apply NoDup_app; [exact ND|repeat constructor; auto|].
    intros i Hi [<-|[]]. now apply (Hfresh uuid).
  - destruct H1 as [l1 l2 _ _]. rewrite map_app in *. simpl in ND.
    now apply NoDup_remove_1 in ND.
  - destruct H1 as [l1 l2 _ _]. rewrite map_app in *. simpl in *.
    now rewrite (proj1 (mutation_keeps _ _ _ _ H0 s)).
Qed.

Lemma unique_ids_kept_witness :
  uniqueIds (dbData (snd (app parseFloat_digits (POST_sessions uuid23)
                            (request toulouse "" [("name", "C#23")]) world0))).
Proof.
  apply unique_ids_kept.
  - unfold uniqueIds. simpl. repeat constructor; simpl; intuition discriminate.
  - intros uuid [= <-]. simpl. intuition discriminate.
Defined.

(** X7. References stay valid: if every submission refers to a stored
    session, then so it is after a request on any route; the deletion of a
    session takes its submissions along, and an evaluation is only accepted
    for a stored session. *)
Theorem references_kept (parseFloat : option string -> float)
    (r : Route) (req : Request) (w : World) :
  referenced (dbData w) ->
  referenced (dbData (snd (app parseFloat r req w))).
Proof.
  unfold referenced. intros R.
  outcome parseFloat r req w; simpl; auto.
  - intros sub Hsub. destruct (R sub Hsub) as (s & Hs & E).
    exists s. split; [apply in_or_app; auto|exact E].
  - intros sub Hsub. apply filter_In in Hsub. destruct Hsub as [Hsub Hne].
    apply campus_differs in Hne.
    destruct (R sub Hsub) as (s0 & Hs0 & E). exists s0. split; [|exact E].
    destruct H1 as [l1 l2 Hid _]. apply in_app_or in Hs0. apply in_or_app.
    destruct Hs0 as [?|[->|?]]; auto. congruence.
  - intros sub Hsub. destruct (R sub Hsub) as (s0 & Hs0 & E).
    destruct H1 as [l1 l2 Hid _]. apply in_app_or in Hs0.
    destruct Hs0 as [?|[->|?]].
    + exists s0. split; [apply in_or_app; auto|exact E].
    + exists (f s0). split; [apply in_or_app; simpl; auto|].
      now rewrite (proj1 (mutation_keeps _ _ _ _ H0 s0)).
    + exists s0. split; [apply in_or_app; simpl; auto|exact E].
  - intros sub Hsub. apply in_app_or in Hsub. destruct Hsub as [Hsub|[<-|[]]].
    + now apply R.
    + apply findSession_In in H1. destruct H1 as [Hs E].
      exists s. split; [exact Hs|]. simpl. now rewrite E.
Qed.

Lemma references_kept_witness :
  referenced (dbData (snd (app parseFloat_digits DELETE_sessions_id
                             (request toulouse idC22 []) world0))).
Proof.
  apply references_kept. intros sub [<-|[]].
  exists sessionC22. simpl. auto.
Defined.

(** ** A campus does not see the requests of another *)

Lemma filter_campus_foreign B l1 (s : Session.t) l2 :
  Session.campus s <> B ->
  filter (fun x => Session.campus x =? B) (l1 ++ s :: l2)
  = filter (fun x => Session.campus x =? B) (l1 ++ l2).
Proof.
  intros H. apply String.eqb_neq in H. rewrite !filter_app. simpl.
  now rewrite H.
Qed.

(** With unique identifiers, the id of a session of another campus is none
    of the ids of campus [B]. *)
Lemma foreign_id_excluded B db s :
  uniqueIds db -> In s (sessions db) -> Session.campus s <> B ->
  includes (map Session.id (campusSessionsOf B db)) (Some (Session.id s)) = false.
Proof.
  intros ND Hs Hc. apply includes_not_listed. intros (x & [= <-] & Hx).
  apply in_map_iff in Hx. destruct Hx as (s' & E & Hs').
  apply filter_In in Hs'. destruct Hs' as [Hs' Hc']. apply String.eqb_eq in Hc'.
  assert (s' = s)
    by (apply (NoDup_map_injective Session.id (sessions db)); auto).
  congruence.
Qed.

(** Dropping the submissions of an id that is none of [ids] does not change
    which submissions have their id among [ids]. *)
Lemma filter_ids_without ids sid (subs : list Submission.t) :
  includes ids (Some sid) = false ->
  filter (fun sub => includes ids (Some (Submission.sessionId sub)))
    (filter (fun sub => negb (Submission.sessionId sub =? sid)) subs)
  = filter (fun sub => includes ids (Some (Submission.sessionId sub))) subs.
Proof.
  intros X. induction subs as [|x subs IH]; simpl in *; [reflexivity|].
  destruct (Submission.sessionId x =? sid) eqn:Ex; simpl.
  - apply String.eqb_eq in Ex. now rewrite Ex, X.
  - now rewrite IH.
Qed.

Lemma getSessions_answer req u w :
  session_user req = Some u ->
  getSessions req w =
    ({| status := 200;
        json := JSessions (campusSessionsOf (user_campus u) (dbData w)) |}, w).
Proof. intros Hu. unfold getSessions, isAuthenticated. now rewrite Hu. Qed.

Lemma resultsWithAverages_answer req u w :
  session_user req = Some u ->
  resultsWithAverages req w =
    ({| status := 200;
        json := JResults (rawSubmissionsOf (user_campus u) (dbData w))
                  (aggregatedOf (rawSubmissionsOf (user_campus u) (dbData w)))
                  (campusSessionsOf (user_campus u) (dbData w)) |}, w).
Proof. intros Hu. unfold resultsWithAverages, isAuthenticated. now rewrite Hu. Qed.

(** X8. Non-interference: when no two stored sessions share an id, a request
    of a user of another campus, on any route, changes nothing of what
    campus B is shown: its sessions and the raw submissions of its results
    are the same before and after, and so are the answers B gets to its two
    GET routes. *)
Theorem other_campus_unaffected (parseFloat : option string -> float)
    (r : Route) (req : Request) (w : World) (B : string) :
  uniqueIds (dbData w) ->
  (forall u, session_user req = Some u -> user_campus u <> B) ->
  view B (dbData (snd (app parseFloat r req w))) = view B (dbData w)
  /\ forall reqB uB, session_user reqB = Some uB -> user_campus uB = B ->
       fst (getSessions reqB (snd (app parseFloat r req w)))
       = fst (getSessions reqB w)
       /\ fst (resultsWithAverages reqB (snd (app parseFloat r req w)))
          = fst (resultsWithAverages reqB w).
Proof.
  intros ND Hother.
  assert (V : view B (dbData (snd (app parseFloat r req w))) = view B (dbData w)).
  { outcome parseFloat r req w; simpl; auto;
      match goal with Hu : session_user req = Some _ |- _ =>
        specialize (Hother _ Hu) end.
    - unfold view, rawSubmissionsOf, campusSessionsOf. simpl.
      rewrite filter_app. simpl.
      apply String.eqb_neq in Hother. rewrite Hother, app_nil_r. reflexivity.
    - assert (Hc : Session.campus s <> B) by congruence.
      match goal with F : FirstWithId _ _ _ _ _ |- _ =>
        pose proof (first_In _ _ _ _ _ F) as [Hs Hid];
        pose proof (foreign_id_excluded B (dbData w) s ND Hs Hc) as X;
        rewrite Hid in X; revert X;
        unfold view, rawSubmissionsOf, campusSessionsOf; simpl;
        destruct F as [l1 l2 _ _]
      end.
      rewrite <- (filter_campus_foreign B l1 s l2 Hc). intros X.
      now rewrite (filter_ids_without _ _ _ X).
    - assert (Hc : Session.campus s <> B) by congruence.
      assert (Hc' : Session.campus (f s) <> B).
      { match goal with Hm : mutation _ _ = Some _ |- _ =>
          now rewrite (proj2 (proj2 (mutation_keeps _ _ _ _ Hm s))) end. }
      unfold view, rawSubmissionsOf, campusSessionsOf. simpl.
      match goal with F : FirstWithId _ _ _ _ _ |- _ =>
        destruct F as [l1 l2 _ _]
      end.
      now rewrite (filter_campus_foreign B l1 (f s) l2 Hc'),
        (filter_campus_foreign B l1 s l2 Hc).
    - match goal with F : findSession _ _ = Some _ |- _ =>
        apply findSession_In in F; destruct F as [Hs E]
      end.
      assert (Hc : Session.campus s <> B) by congruence.
      pose proof (foreign_id_excluded B (dbData w) s ND Hs Hc) as X.
      revert X. unfold view, rawSubmissionsOf, campusSessionsOf. simpl.
      intros X. rewrite filter_app. simpl. rewrite E. simpl.
      now rewrite X, app_nil_r. }
  split; [exact V|].
  intros reqB uB HuB HB. unfold view in V. injection V as V1 V2.
  rewrite !(getSessions_answer _ _ _ HuB), !(resultsWithAverages_answer _ _ _ HuB).
  simpl. now rewrite HB, V1, V2.
Qed.

Lemma other_campus_unaffected_witness :
  view "Paris"
    (dbData (snd (app parseFloat_digits POST_submitEvaluation
                    (request toulouse "" evaluationBody) world0)))
  = view "Paris" (dbData world0).
Proof.
  apply (other_campus_unaffected parseFloat_digits POST_submitEvaluation
           (request toulouse "" evaluationBody) world0 "Paris").
  - unfold uniqueIds. simpl. repeat constructor; simpl; intuition discriminate.
  - intros u [= <-]. discriminate.
Defined.

(** ** Login, logout and the campuses of the store *)

(** X9. A login succeeds exactly when the username is one of the nine of the
    list and the password is demo: the answer then echoes the username as
    campus and the client's session holds the user of that name and campus.
    Any other login is answered with success false and the fixed message,
    and leaves the client's session as it was, logged in or not.  The status
    is 200 either way. *)
Theorem login_spec (b : Body) (user : option User) :
  (forall c, field "username" b = Some c -> In c validUsernames ->
             field "password" b = Some "demo" ->
     login b user =
       ({| auth_status := 200;
           auth_json := JLogin true "Logged in successfully!" (Some c) |},
        Some {| username := c; user_campus := c |}))
  /\
  (~ (listed validUsernames (field "username" b)
      /\ field "password" b = Some "demo") ->
   login b user =
     ({| auth_status := 200; auth_json := JLogin false "Invalid credentials." None |},
      user)).
Proof.
  unfold login. split.
  - intros c Hc Hin Hp.
    assert (H : includes validUsernames (field "username" b) = true)
      by (apply includes_listed; exists c; auto).
    now rewrite H, Hp, Hc.
  - intros H. destruct (includes _ _) eqn:Hi; [|reflexivity].
    destruct (isDemo _) eqn:Hd; [|reflexivity].
    elim H. split; [now apply includes_listed|].
    unfold isDemo in Hd. destruct (field "password" b) as [p|]; [|discriminate].
    apply String.eqb_eq in Hd. now subst.
Qed.

Lemma login_spec_witness :
  login [("username", "Toulouse"); ("password", "demo")] None
  = ({| auth_status := 200;
        auth_json := JLogin true "Logged in successfully!" (Some "Toulouse") |},
     Some toulouse)
  /\ login [("username", "fakeUser"); ("password", "badPass")] (Some paris)
     = ({| auth_status := 200;
           auth_json := JLogin false "Invalid credentials." None |},
        Some paris).
Proof.
  split.
  - apply (proj1 (login_spec [("username", "Toulouse"); ("password", "demo")] None)
             "Toulouse" eq_refl); [|reflexivity].
    simpl. tauto.
  - apply (proj2 (login_spec [("username", "fakeUser"); ("password", "badPass")]
                    (Some paris))).
    intros [_ H]. discriminate H.
Defined.

Lemma login_fromLogin b user : fromLogin user -> fromLogin (snd (login b user)).
Proof.
  intros H. unfold login.
  destruct (includes _ _) eqn:Hi; simpl; [|exact H].
  destruct (isDemo _); simpl; [|exact H].
  apply includes_listed in Hi. destruct Hi as (c & -> & Hc). simpl. auto.
Qed.

(** X10. Only the campuses of the list own sessions.  A session of a client
    that holds nothing, or a user whose campus is its username and a name of
    the list, stays so through login, logout and checkSession; and when the
    caller's session is such and the stored sessions all belong to campuses
    of the list, they still do after the request, on any route. *)
Theorem campuses_of_the_list (parseFloat : option string -> float)
    (r : Route) (req : Request) (w : World) (b : Body) (err : bool) :
  fromLogin (session_user req) ->
  fromLogin (snd (login b (session_user req)))
  /\ fromLogin (snd (logout err (session_user req)))
  /\ fromLogin (snd (checkSession (session_user req)))
  /\ (campusesValid (dbData w) ->
      campusesValid (dbData (snd (app parseFloat r req w)))).
Proof.
  intros HL. split; [now apply login_fromLogin|]. split; [|split].
  - unfold logout. destruct err; simpl; auto.
  - unfold checkSession. destruct (session_user req); simpl; auto.
  - unfold campusesValid. intros V.
    outcome parseFloat r req w; simpl; auto.
    + match goal with Hu : session_user req = Some _ |- _ => rewrite Hu in HL end.
      unfold fromLogin in HL. destruct HL as [E HL].
      intros s Hs. apply in_app_or in Hs. destruct Hs as [Hs|[<-|[]]].
      * exact (V s Hs).
      * simpl. rewrite E. exact HL.
    + intros s0 Hs0. apply V.
      match goal with F : FirstWithId _ _ _ _ _ |- _ => destruct F as [l1 l2 _ _] end.
      apply in_app_or in Hs0. apply in_or_app. simpl. tauto.
    + intros s0 Hs0.
      match goal with F : FirstWithId _ _ _ _ _ |- _ => destruct F as [l1 l2 _ _] end.
      apply in_app_or in Hs0. destruct Hs0 as [?|[<-|?]].
      * apply V, in_or_app. auto.
      * match goal with Hm : mutation _ _ = Some _ |- _ =>
          rewrite (proj2 (proj2 (mutation_keeps _ _ _ _ Hm s))) end.
        apply V, in_or_app. simpl. auto.
      * apply V, in_or_app. simpl. auto.
Qed.

Lemma campuses_of_the_list_witness :
  campusesValid (dbData (snd (app parseFloat_digits (POST_sessions uuid23)
                                (request toulouse "" [("name", "C#23")]) world0))).
Proof.
  apply (campuses_of_the_list parseFloat_digits (POST_sessions uuid23)
           (request toulouse "" [("name", "C#23")]) world0 [] false).
  - simpl. tauto.
  - intros s [<-|[<-|[]]]; simpl; tauto.
Defined.

(** X11. The life of a client's session: after a successful login as a
    campus, checkSession reports that campus and the listing route answers
    with that campus's sessions; after the logout that follows, checkSession
    reports no login and every route answers 401. *)
Theorem session_lifecycle (b : Body) (user : option User) (c : string) :
  field "username" b = Some c -> In c validUsernames ->
  field "password" b = Some "demo" ->
  fst (checkSession (snd (login b user)))
  = {| auth_status := 200; auth_json := JCheckSession true (Some c) |}
  /\ (forall sid body w,
        getSessions {| session_user := snd (login b user);
                       params_id := sid; body := body |} w
        = ({| status := 200; json := JSessions (campusSessionsOf c (dbData w)) |},
           w))
  /\ logout false (snd (login b user))
     = ({| auth_status := 302; auth_json := JRedirect "/" |}, None)
  /\ fst (checkSession (snd (logout false (snd (login b user)))))
     = {| auth_status := 200; auth_json := JCheckSession false None |}
  /\ (forall parseFloat r sid body w,
        app parseFloat r
          {| session_user := snd (logout false (snd (login b user)));
             params_id := sid; body := body |} w
        = ({| status := 401; json := JError "Unauthorized" |}, w)).
Proof.
  intros Hc Hin Hp.
  assert (L : snd (login b user) = Some {| username := c; user_campus := c |}).
  { unfold login.
    assert (H : includes validUsernames (field "username" b) = true)
      by (apply includes_listed; exists c; auto).
    now rewrite H, Hp, Hc. }
  rewrite L. repeat split.
  intros parseFloat r sid body0 w.
  pose proof (app_outcome parseFloat r
                {| session_user := None; params_id := sid; body := body0 |} w) as O.
  simpl. destruct (app _ _ _ _) as [resp w']. simpl in O.
  destruct O; simpl in *; congruence.
Qed.

Lemma session_lifecycle_witness :
  fst (checkSession (snd (login [("username", "Toulouse"); ("password", "demo")] None)))
  = {| auth_status := 200; auth_json := JCheckSession true (Some "Toulouse") |}
  /\ fst (checkSession
            (snd (logout false
                    (snd (login [("username", "Toulouse"); ("password", "demo")]
                            None)))))
     = {| auth_status := 200; auth_json := JCheckSession false None |}.
Proof.
  assert (Hin : In "Toulouse" validUsernames) by (simpl; tauto).
  destruct (session_lifecycle [("username", "Toulouse"); ("password", "demo")]
              None "Toulouse" eq_refl Hin eq_refl) as (H1 & _ & _ & H2 & _).
  split; [exact H1|exact H2].
Defined.

(** ** How the routes compose *)

Section OwnSession.

Variables (req : Request) (w : World) (u : User) (s : Session.t)
  (l1 l2 : list Session.t).
Hypothesis Hu : session_user req = Some u.
Hypothesis F : FirstWithId (params_id req) s (sessions (dbData w)) l1 l2.
Hypothesis Hc : Session.campus s = user_campus u.

Lemma onOwnSession_first f message :
  onOwnSession u (params_id req) f message w =
    ({| status := 200; json := JMessageSession message (f s) |},
     saved {| sessions := l1 ++ f s :: l2;
              submissions := submissions (dbData w) |}).
Proof.
  unfold onOwnSession. rewrite (first_find _ _ _ _ _ F).
  apply campus_same in Hc. rewrite Hc. simpl.
  now rewrite (first_mutateFound _ _ _ _ _ f F).
Qed.

Lemma postJuries_first j :
  field "juryName" (body req) = Some j -> j <> "" ->
  postJuries req w =
    ({| status := 200;
        json := JMessageSession "Jury added successfully." (pushJury j s) |},
     saved {| sessions := l1 ++ pushJury j s :: l2;
              submissions := submissions (dbData w) |}).
Proof.
  intros Hj Hne. unfold postJuries, isAuthenticated. rewrite Hu, Hj. simpl.
  apply String.eqb_neq in Hne. rewrite Hne. simpl. apply onOwnSession_first.
Qed.

Lemma postStudents_first j :
  field "studentName" (body req) = Some j -> j <> "" ->
  postStudents req w =
    ({| status := 200;
        json := JMessageSession "Student added successfully." (pushStudent j s) |},
     saved {| sessions := l1 ++ pushStudent j s :: l2;
              submissions := submissions (dbData w) |}).
Proof.
  intros Hj Hne. unfold postStudents, isAuthenticated. rewrite Hu, Hj. simpl.
  apply String.eqb_neq in Hne. rewrite Hne. simpl. apply onOwnSession_first.
Qed.

Lemma deleteJuries_first :
  deleteJuries req w =
    ({| status := 200;
        json := JMessageSession "Jury deleted successfully."
                  (filterJuries (field "juryName" (body req)) s) |},
     saved {| sessions := l1 ++ filterJuries (field "juryName" (body req)) s :: l2;
              submissions := submissions (dbData w) |}).
Proof.
  unfold deleteJuries, isAuthenticated. rewrite Hu. apply onOwnSession_first.
Qed.

Lemma deleteStudents_first :
  deleteStudents req w =
    ({| status := 200;
        json := JMessageSession "Student deleted successfully."
                  (filterStudents (field "studentName" (body req)) s) |},
     saved {| sessions :=
                l1 ++ filterStudents (field "studentName" (body req)) s :: l2;
              submissions := submissions (dbData w) |}).
Proof.
  unfold deleteStudents, isAuthenticated. rewrite Hu. apply onOwnSession_first.
Qed.

Lemma deleteSession_first :
  deleteSession req w =
    ({| status := 200; json := JMessage "Session deleted successfully." |},
     saved {| sessions := l1 ++ l2;
              submissions :=
                filter (fun sub => negb (Submission.sessionId sub =? params_id req))
                  (submissions (dbData w)) |}).
Proof.
  unfold deleteSession, isAuthenticated. rewrite Hu.
  rewrite (first_findIndex _ _ _ _ _ F), (first_nth_error _ _ _ _ _ F).
  apply campus_same in Hc. rewrite Hc. simpl.
  now rewrite (first_splice1 _ _ _ _ _ F).
Qed.

(** The session changed in place is again the first with its id. *)
Lemma first_changed (f : Session.t -> Session.t) subs :
  Session.id (f s) = Session.id s ->
  FirstWithId (params_id req) (f s)
    (sessions (dbData (saved {| sessions := l1 ++ f s :: l2; submissions := subs |})))
    l1 l2.
Proof.
  intros Hid. simpl. destruct F as [l1' l2' Hs Hl1].
  apply (first_with_id _ (f s) l1' l2'); congruence.
Qed.

End OwnSession.

(** X12. Adding appends: on a session of the caller's campus, a jury (a
    student) with a non-empty name is answered 200 and the name goes last in
    the session's array, also when it is there already; nothing else of the
    session, of the other sessions or of the submissions changes, and the
    document is saved. *)
Theorem add_appends (req : Request) (w : World) (u : User) (s : Session.t) :
  session_user req = Some u ->
  findSession (Some (params_id req)) (sessions (dbData w)) = Some s ->
  Session.campus s = user_campus u ->
  exists l1 l2,
    FirstWithId (params_id req) s (sessions (dbData w)) l1 l2
    /\ (forall j, field "juryName" (body req) = Some j -> j <> "" ->
        exists s',
          postJuries req w =
            ({| status := 200;
                json := JMessageSession "Jury added successfully." s' |},
             saved {| sessions := l1 ++ s' :: l2;
                      submissions := submissions (dbData w) |})
          /\ s' = {| Session.id := Session.id s; Session.name := Session.name s;
                     Session.campus := Session.campus s;
                     Session.juries := Session.juries s ++ [j];
                     Session.students := Session.students s |}
          /\ count_occ string_dec (Session.juries s') j
             = S (count_occ string_dec (Session.juries s) j))
    /\ (forall j, field "studentName" (body req) = Some j -> j <> "" ->
        exists s',
          postStudents req w =
            ({| status := 200;
                json := JMessageSession "Student added successfully." s' |},
             saved {| sessions := l1 ++ s' :: l2;
                      submissions := submissions (dbData w) |})
          /\ s' = {| Session.id := Session.id s; Session.name := Session.name s;
                     Session.campus := Session.campus s;
                     Session.juries := Session.juries s;
                     Session.students := Session.students s ++ [j] |}
          /\ count_occ string_dec (Session.students s') j
             = S (count_occ string_dec (Session.students s) j)).
Proof.
  intros Hu Hf Hc. destruct (findSession_first _ _ _ Hf) as (l1 & l2 & F).
  exists l1, l2. split; [exact F|]. split; intros j Hj Hne.
  - exists (pushJury j s). split; [|split; [reflexivity|]].
    + now apply (postJuries_first req w u s l1 l2).
    + simpl. rewrite count_occ_app. simpl.
      destruct (string_dec j j); [lia|congruence].
  - exists (pushStudent j s). split; [|split; [reflexivity|]].
    + now apply (postStudents_first req w u s l1 l2).
    + simpl. rewrite count_occ_app. simpl.
      destruct (string_dec j j); [lia|congruence].
Qed.

(** Hugo, already twice in the jury of C#22, is added a third time. *)
Lemma add_appends_witness :
  postJuries (request toulouse idC22 [("juryName", "Hugo")]) world0
  = ({| status := 200;
        json := JMessageSession "Jury added successfully." sessionC22_with_Hugo |},
     saved {| sessions := [sessionParis; sessionC22_with_Hugo];
              submissions := [submissionFabien] |}).
Proof.
  destruct (add_appends (request toulouse idC22 [("juryName", "Hugo")]) world0
              toulouse sessionC22 eq_refl eq_refl eq_refl)
    as (l1 & l2 & F & HJ & _).
  destruct (first_unique _ _ _ _ _ _ _ F first_C22) as [-> ->].
  destruct (HJ "Hugo" eq_refl) as (s' & Hr & -> & _); [discriminate|].
  exact Hr.
Defined.

Lemma filter_differs_pushed j l :
  filter (differs (Some j)) (l ++ [j]) = filter (differs (Some j)) l.
Proof.
  rewrite filter_app. simpl. rewrite String.eqb_refl. apply app_nil_r.
Qed.

Lemma saved_same_sessions (db : DB) l :
  l = sessions db ->
  saved {| sessions := l; submissions := submissions db |} = saved db.
Proof. intros ->. now destruct db. Qed.

(** X13. Add, then remove: on a session of the caller's campus, removing a
    jury (a student) right after adding it leaves the session's array
    without any entry of that name, the one just added and those that were
    there before; it gives back the array and the whole document as they
    were exactly when the name was not in the array before the addition. *)
Theorem add_then_remove (req : Request) (w : World) (u : User) (s : Session.t)
    (j : string) :
  session_user req = Some u ->
  findSession (Some (params_id req)) (sessions (dbData w)) = Some s ->
  Session.campus s = user_campus u ->
  j <> "" ->
  exists l1 l2,
    FirstWithId (params_id req) s (sessions (dbData w)) l1 l2
    /\ (field "juryName" (body req) = Some j ->
        deleteJuries req (snd (postJuries req w)) =
          ({| status := 200;
              json := JMessageSession "Jury deleted successfully."
                        (filterJuries (Some j) s) |},
           saved {| sessions := l1 ++ filterJuries (Some j) s :: l2;
                    submissions := submissions (dbData w) |})
        /\ (~ In j (Session.juries s) ->
            snd (deleteJuries req (snd (postJuries req w))) = saved (dbData w)))
    /\ (field "studentName" (body req) = Some j ->
        deleteStudents req (snd (postStudents req w)) =
          ({| status := 200;
              json := JMessageSession "Student deleted successfully."
                        (filterStudents (Some j) s) |},
           saved {| sessions := l1 ++ filterStudents (Some j) s :: l2;
                    submissions := submissions (dbData w) |})
        /\ (~ In j (Session.students s) ->
            snd (deleteStudents req (snd (postStudents req w))) = saved (dbData w))).
Proof.
  intros Hu Hf Hc Hne. destruct (findSession_first _ _ _ Hf) as (l1 & l2 & F).
  exists l1, l2. split; [exact F|].
  assert (Hl : l1 ++ s :: l2 = sessions (dbData w)) by now destruct F.
  split; intros Hj.
  - rewrite (postJuries_first req w u s l1 l2 Hu F Hc j Hj Hne). simpl.
    assert (E : deleteJuries req
                  (saved {| sessions := l1 ++ pushJury j s :: l2;
                            submissions := submissions (dbData w) |})
                = ({| status := 200;
                      json := JMessageSession "Jury deleted successfully."
                                (filterJuries (Some j) s) |},
                   saved {| sessions := l1 ++ filterJuries (Some j) s :: l2;
                            submissions := submissions (dbData w) |})).
    { rewrite (deleteJuries_first req _ u (pushJury j s) l1 l2 Hu
                 (first_changed req w s l1 l2 F (pushJury j) _ eq_refl) Hc).
      rewrite Hj. unfold filterJuries. simpl.
      now rewrite filter_differs_pushed. }
    split; [exact E|]. intros Hout. rewrite E. simpl.
    rewrite (filterJuries_absent (Some j) s).
    + now apply saved_same_sessions.
    + now intros ? [= <-].
  - rewrite (postStudents_first req w u s l1 l2 Hu F Hc j Hj Hne). simpl.
    assert (E : deleteStudents req
                  (saved {| sessions := l1 ++ pushStudent j s :: l2;
                            submissions := submissions (dbData w) |})
                = ({| status := 200;
                      json := JMessageSession "Student deleted successfully."
                                (filterStudents (Some j) s) |},
                   saved {| sessions := l1 ++ filterStudents (Some j) s :: l2;
                            submissions := submissions (dbData w) |})).
    { rewrite (deleteStudents_first req _ u (pushStudent j s) l1 l2 Hu
                 (first_changed req w s l1 l2 F (pushStudent j) _ eq_refl) Hc).
      rewrite Hj. unfold filterStudents. simpl.
      now rewrite filter_differs_pushed. }
    split; [exact E|]. intros Hout. rewrite E. simpl.
    rewrite (filterStudents_absent (Some j) s).
    + now apply saved_same_sessions.
    + now intros ? [= <-].
Qed.

(** Zoe is no jury of C#22: adding and removing her restores the store. *)
Lemma add_then_remove_witness :
  snd (deleteJuries (request toulouse idC22 [("juryName", "Zoe")])
         (snd (postJuries (request toulouse idC22 [("juryName", "Zoe")]) world0)))
  = world0.
Proof.
  assert (Hne : "Zoe" <> "") by discriminate.
  destruct (add_then_remove (request toulouse idC22 [("juryName", "Zoe")]) world0
              toulouse sessionC22 "Zoe" eq_refl eq_refl eq_refl Hne)
    as (l1 & l2 & _ & HJ & _).
  destruct (HJ eq_refl) as [_ H]. apply H.
  simpl. intros [E|[E|[E|[]]]]; discriminate E.
Defined.

(** X14. Create, then list: after a session is created, the listing of its
    campus is the listing before with the new session last. *)
Theorem create_then_list (uuid : string) (req req' : Request) (w : World)
    (u : User) (n : string) :
  session_user req = Some u ->
  field "name" (body req) = Some n -> n <> "" ->
  session_user req' = Some u ->
  getSessions req' (snd (postSessions uuid req w)) =
    ({| status := 200;
        json := JSessions
                  (campusSessionsOf (user_campus u) (dbData w)
                   ++ [{| Session.id := uuid; Session.name := n;
                          Session.campus := user_campus u;
                          Session.juries := []; Session.students := [] |}]) |},
     snd (postSessions uuid req w)).
Proof.
  intros Hu Hn Hne Hu'. rewrite (getSessions_answer _ _ _ Hu').
  unfold postSessions, isAuthenticated. rewrite Hu, Hn. simpl.
  apply String.eqb_neq in Hne. rewrite Hne. simpl.
  unfold campusSessionsOf. simpl. rewrite filter_app. simpl.
  now rewrite String.eqb_refl.
Qed.

Lemma create_then_list_witness :
  getSessions (request toulouse "" [])
    (snd (postSessions uuid23 (request toulouse "" [("name", "C#23")]) world0))
  = ({| status := 200; json := JSessions [sessionC22; session23] |},
     saved {| sessions := [sessionParis; sessionC22; session23];
              submissions := [submissionFabien] |}).
Proof.
  assert (Hne : "C#23" <> "") by discriminate.
  exact (create_then_list uuid23 (request toulouse "" [("name", "C#23")])
           (request toulouse "" []) world0 toulouse "C#23"
           eq_refl eq_refl Hne eq_refl).
Defined.

(** X15. Delete, then look up: when no two stored sessions share an id,
    after a session is deleted no stored session and no stored submission
    has its id, and the same deletion again is answered 404. *)
Theorem delete_then_gone (req : Request) (w : World) (u : User) (s : Session.t) :
  uniqueIds (dbData w) ->
  session_user req = Some u ->
  findSession (Some (params_id req)) (sessions (dbData w)) = Some s ->
  Session.campus s = user_campus u ->
  (forall x, In x (sessions (dbData (snd (deleteSession req w)))) ->
             Session.id x <> params_id req)
  /\ (forall sub, In sub (submissions (dbData (snd (deleteSession req w)))) ->
                  Submission.sessionId sub <> params_id req)
  /\ deleteSession req (snd (deleteSession req w)) =
       ({| status := 404; json := JError "Session not found." |},
        snd (deleteSession req w)).
Proof.
  intros ND Hu Hf Hc. destruct (findSession_first _ _ _ Hf) as (l1 & l2 & F).
  rewrite (deleteSession_first req w u s l1 l2 Hu F Hc). simpl.
  assert (G : forall x, In x (l1 ++ l2) -> Session.id x <> params_id req).
  { unfold uniqueIds in ND. destruct F as [l1 l2 Hid _].
    rewrite map_app in ND. simpl in ND. apply NoDup_remove_2 in ND.
    intros x Hx E. apply ND. rewrite <- map_app, Hid, <- E. now apply in_map. }
  split; [exact G|]. split.
  - intros sub Hsub. apply filter_In in Hsub. now apply campus_differs.
  - unfold deleteSession, isAuthenticated. rewrite Hu. simpl.
    apply findSession_none in G. simpl in G.
    destruct (findIndex _ (l1 ++ l2)) as [i|] eqn:Hi; [|reflexivity].
    destruct (findIndex_nth_error _ _ _ Hi) as (x & _ & Hx).
    simpl in Hx. congruence.
Qed.

Lemma delete_then_gone_witness :
  deleteSession (request toulouse idC22 [])
    (snd (deleteSession (request toulouse idC22 []) world0))
  = ({| status := 404; json := JError "Session not found." |},
     saved {| sessions := [sessionParis]; submissions := [] |}).
Proof.
  assert (ND : uniqueIds (dbData world0)).
  { unfold uniqueIds. simpl. repeat constructor; simpl; intuition discriminate. }
  exact (proj2 (proj2 (delete_then_gone (request toulouse idC22 []) world0 toulouse
                         sessionC22 ND eq_refl eq_refl eq_refl))).
Defined.

(** X16. Create, then delete: when the id drawn is that of no stored session
    and every submission refers to a stored session, deleting the session
    just created gives back the document as it was before the creation. *)
Theorem create_then_delete (uuid : string) (req req' : Request) (w : World)
    (u : User) (n : string) :
  session_user req = Some u ->
  field "name" (body req) = Some n -> n <> "" ->
  session_user req' = Some u -> params_id req' = uuid ->
  ~ In uuid (map Session.id (sessions (dbData w))) ->
  referenced (dbData w) ->
  deleteSession req' (snd (postSessions uuid req w)) =
    ({| status := 200; json := JMessage "Session deleted successfully." |},
     saved (dbData w)).
Proof.
  intros Hu Hn Hne Hu' Hid Hfresh R.
  unfold postSessions, isAuthenticated. rewrite Hu, Hn. simpl.
  apply String.eqb_neq in Hne. rewrite Hne. simpl.
  set (new := {| Session.id := uuid; Session.name := n;
                 Session.campus := user_campus u;
                 Session.juries := []; Session.students := [] |}).
  set (w1 := saveDatabase (setSessions (sessions (dbData w) ++ [new]) w)).
  assert (F : FirstWithId (params_id req') new (sessions (dbData w1))
                (sessions (dbData w)) []).
  { apply (first_with_id _ new (sessions (dbData w)) []); [now rewrite Hid|].
    rewrite Hid. apply Forall_forall. intros x Hx E. apply Hfresh.
    rewrite <- E. now apply in_map. }
  rewrite (deleteSession_first req' w1 u new _ _ Hu' F eq_refl).
  f_equal. rewrite app_nil_r. simpl.
  replace (filter _ (submissions (dbData w))) with (submissions (dbData w)).
  - now destruct (dbData w).
  - symmetry. apply forallb_filter_id. apply forallb_forall. intros sub Hsub.
    apply campus_differs. rewrite Hid. intros E.
    destruct (R sub Hsub) as (x & Hx & Ex). apply Hfresh.
    rewrite <- E, <- Ex. now apply in_map.
Qed.

Lemma create_then_delete_witness :
  deleteSession (request toulouse uuid23 [])
    (snd (postSessions uuid23 (request toulouse "" [("name", "C#23")]) world0))
  = ({| status := 200; json := JMessage "Session deleted successfully." |},
     world0).
Proof.
  assert (Hne : "C#23" <> "") by discriminate.
  apply (create_then_delete uuid23 (request toulouse "" [("name", "C#23")])
           (request toulouse uuid23 []) world0 toulouse "C#23"
           eq_refl eq_refl Hne eq_refl eq_refl).
  - simpl. intuition discriminate.
  - intros sub [<-|[]]. exists sessionC22. simpl. auto.
Defined.

(** X17. Remove, then submit: once a jury (a student) is removed from a
    session of the caller's campus, an evaluation for that session that
    names it is answered 400 and stored nowhere; the submissions made before
    the removal stay. *)
Theorem remove_then_submit (parseFloat : option string -> float)
    (req reqE : Request) (w : World) (u : User) (s : Session.t) (j : string) :
  session_user req = Some u ->
  findSession (Some (params_id req)) (sessions (dbData w)) = Some s ->
  Session.campus s = user_campus u ->
  session_user reqE = Some u ->
  field "sessionId" (body reqE) = Some (params_id req) ->
  (field "juryName" (body req) = Some j ->
   field "juryName" (body reqE) = Some j ->
   submitEvaluation parseFloat reqE (snd (deleteJuries req w)) =
     ({| status := 400; json := JError "Jury does not exist in this session." |},
      snd (deleteJuries req w))
   /\ submissions (dbData (snd (deleteJuries req w))) = submissions (dbData w))
  /\
  (field "studentName" (body req) = Some j ->
   field "studentName" (body reqE) = Some j ->
   status (fst (submitEvaluation parseFloat reqE (snd (deleteStudents req w)))) = 400
   /\ snd (submitEvaluation parseFloat reqE (snd (deleteStudents req w)))
      = snd (deleteStudents req w)
   /\ submissions (dbData (snd (deleteStudents req w))) = submissions (dbData w)).
Proof.
  intros Hu Hf Hc HuE Hsid. destruct (findSession_first _ _ _ Hf) as (l1 & l2 & F).
  split; intros Hj HjE.
  - rewrite (deleteJuries_first req w u s l1 l2 Hu F Hc). simpl.
    split; [|reflexivity].
    unfold submitEvaluation, isAuthenticated. rewrite HuE, Hsid, HjE.
    rewrite (first_find _ _ _ _ _
               (first_changed req w s l1 l2 F
                  (filterJuries (field "juryName" (body req))) _ eq_refl)).
    simpl. apply campus_same in Hc. rewrite Hc. simpl.
    assert (N : existsb (fun y => y =? j)
                  (filter (differs (field "juryName" (body req))) (Session.juries s))
                = false).
    { rewrite Hj. apply (includes_not_listed _ (Some j)).
      intros (x & [= <-] & Hx). now apply filter_differs_spec in Hx. }
    now rewrite N.
  - rewrite (deleteStudents_first req w u s l1 l2 Hu F Hc). simpl.
    split; [|split; [|reflexivity]];
      unfold submitEvaluation, isAuthenticated; rewrite HuE, Hsid, HjE;
      rewrite (first_find _ _ _ _ _
                 (first_changed req w s l1 l2 F
                    (filterStudents (field "studentName" (body req))) _ eq_refl));
      simpl; apply campus_same in Hc; rewrite Hc; simpl;
      assert (N : existsb (fun y => y =? j)
                    (filter (differs (field "studentName" (body req)))
                       (Session.students s)) = false)
        by (rewrite Hj; apply (includes_not_listed _ (Some j));
            intros (x & [= <-] & Hx); now apply filter_differs_spec in Hx);
      rewrite N; destruct (includes (Session.juries s) _); reflexivity.
Qed.

(** Hugo is removed from the jury of C#22: the payload of the test suite,
    which names him, is refused, and Fabien's submission by Hugo stays. *)
Lemma remove_then_submit_witness :
  submitEvaluation parseFloat_digits (request toulouse "" evaluationBody)
    (snd (deleteJuries (request toulouse idC22 [("juryName", "Hugo")]) world0))
  = ({| status := 400; json := JError "Jury does not exist in this session." |},
     saved {| sessions := [sessionParis; sessionC22_without_Hugo];
              submissions := [submissionFabien] |}).
Proof.
  exact (proj1 (proj1 (remove_then_submit parseFloat_digits
                         (request toulouse idC22 [("juryName", "Hugo")])
                         (request toulouse "" evaluationBody) world0 toulouse
                         sessionC22 "Hugo" eq_refl eq_refl eq_refl eq_refl eq_refl)
                  eq_refl eq_refl)).
Defined.

(** X18. Add, then submit: once a jury and a student are added to a session
    of the caller's campus, an evaluation for that session that names them
    is accepted: it is answered 200 and is the one submission appended. *)
Theorem add_then_submit (parseFloat : option string -> float)
    (reqJ reqS reqE : Request) (w : World) (u : User) (s : Session.t)
    (j st : string) :
  session_user reqJ = Some u -> session_user reqS = Some u ->
  session_user reqE = Some u ->
  params_id reqS = params_id reqJ ->
  findSession (Some (params_id reqJ)) (sessions (dbData w)) = Some s ->
  Session.campus s = user_campus u ->
  field "juryName" (body reqJ) = Some j -> j <> "" ->
  field "studentName" (body reqS) = Some st -> st <> "" ->
  field "sessionId" (body reqE) = Some (params_id reqJ) ->
  field "juryName" (body reqE) = Some j ->
  field "studentName" (body reqE) = Some st ->
  exists w2,
    snd (postStudents reqS (snd (postJuries reqJ w))) = w2
    /\ submitEvaluation parseFloat reqE w2 =
         ({| status := 200; json := JMessage "Evaluation submitted successfully!" |},
          saved {| sessions := sessions (dbData w2);
                   submissions :=
                     submissions (dbData w)
                     ++ [newSubmission parseFloat (body reqE)] |}).
Proof.
  intros HuJ HuS HuE Hid Hf Hc Hj Hjne Hst Hstne HsidE HjE HstE.
  destruct (findSession_first _ _ _ Hf) as (l1 & l2 & F).
  rewrite (postJuries_first reqJ w u s l1 l2 HuJ F Hc j Hj Hjne). simpl.
  pose proof (first_changed reqJ w s l1 l2 F (pushJury j)
                (submissions (dbData w)) eq_refl) as F1.
  rewrite <- Hid in F1.
  rewrite (postStudents_first reqS _ u (pushJury j s) l1 l2 HuS F1 Hc st Hst Hstne).
  simpl. eexists. split; [reflexivity|].
  assert (F2 : FirstWithId (params_id reqJ) (pushStudent st (pushJury j s))
                 (l1 ++ pushStudent st (pushJury j s) :: l2) l1 l2).
  { destruct F as [l1 l2 Hs Hl1]. now apply first_with_id. }
  rewrite (submitEvaluation_accepts parseFloat reqE _ u
             (pushStudent st (pushJury j s)) HuE).
  - reflexivity.
  - rewrite HsidE. simpl. exact (first_find _ _ _ _ _ F2).
  - exact Hc.
  - rewrite HjE. exists j. split; [reflexivity|]. simpl.
    apply in_or_app. simpl. auto.
  - rewrite HstE. exists st. split; [reflexivity|]. simpl.
    apply in_or_app. simpl. auto.
Qed.

(** The first steps of the test suite, from C#22 without jury or student. *)
Lemma add_then_submit_witness :
  submitEvaluation parseFloat_digits (request toulouse "" evaluationBody)
    (snd (postStudents (request toulouse idC22 [("studentName", "Fabien")])
            (snd (postJuries (request toulouse idC22 [("juryName", "Hugo")])
                    (snd (postSessions idC22 (request toulouse "" [("name", "C#22")])
                            emptyWorld))))))
  = ({| status := 200; json := JMessage "Evaluation submitted successfully!" |},
     afterSubmit).
Proof.
  assert (Hj : "Hugo" <> "") by discriminate.
  assert (Hst : "Fabien" <> "") by discriminate.
  destruct (add_then_submit parseFloat_digits
              (request toulouse idC22 [("juryName", "Hugo")])
              (request toulouse idC22 [("studentName", "Fabien")])
              (request toulouse "" evaluationBody)
              (snd (postSessions idC22 (request toulouse "" [("name", "C#22")])
                      emptyWorld))
              toulouse
              {| Session.id := idC22; Session.name := "C#22";
                 Session.campus := "Toulouse";
                 Session.juries := []; Session.students := [] |}
              "Hugo" "Fabien"
              eq_refl eq_refl eq_refl eq_refl eq_refl eq_refl eq_refl Hj
              eq_refl Hst eq_refl eq_refl eq_refl)
    as (w2 & <- & Hr).
  rewrite Hr. reflexivity.
Defined.

Lemma filter_differs_twice v (l : list string) :
  filter (differs v) (filter (differs v) l) = filter (differs v) l.
Proof.
  induction l as [|x l IH]; simpl; [reflexivity|].
  destruct (differs v x) eqn:E; simpl; [now rewrite E, IH|exact IH].
Qed.

(** X25. Removal is idempotent: on a session of the caller's campus, the
    same removal of a jury (a student) made a second time is answered as the
    first, 200 with the same session, and leaves the state as the first
    removal made it. *)
Theorem remove_twice (req : Request) (w : World) (u : User) (s : Session.t) :
  session_user req = Some u ->
  findSession (Some (params_id req)) (sessions (dbData w)) = Some s ->
  Session.campus s = user_campus u ->
  deleteJuries req (snd (deleteJuries req w))
  = (fst (deleteJuries req w), snd (deleteJuries req w))
  /\ status (fst (deleteJuries req w)) = 200
  /\ deleteStudents req (snd (deleteStudents req w))
     = (fst (deleteStudents req w), snd (deleteStudents req w))
  /\ status (fst (deleteStudents req w)) = 200.
Proof.
  intros Hu Hf Hc. destruct (findSession_first _ _ _ Hf) as (l1 & l2 & F).
  rewrite (deleteJuries_first req w u s l1 l2 Hu F Hc),
    (deleteStudents_first req w u s l1 l2 Hu F Hc). simpl.
  rewrite (deleteJuries_first req _ u _ l1 l2 Hu
             (first_changed req w s l1 l2 F
                (filterJuries (field "juryName" (body req))) _ eq_refl) Hc).
  rewrite (deleteStudents_first req _ u _ l1 l2 Hu
             (first_changed req w s l1 l2 F
                (filterStudents (field "studentName" (body req))) _ eq_refl) Hc).
  unfold filterJuries, filterStudents. simpl.
  rewrite !filter_differs_twice. auto.
Qed.

Lemma remove_twice_witness :
  deleteJuries (request toulouse idC22 [("juryName", "Hugo")])
    (snd (deleteJuries (request toulouse idC22 [("juryName", "Hugo")]) world0))
  = ({| status := 200;
        json := JMessageSession "Jury deleted successfully." sessionC22_without_Hugo |},
     saved {| sessions := [sessionParis; sessionC22_without_Hugo];
              submissions := [submissionFabien] |}).
Proof.
  exact (proj1 (remove_twice (request toulouse idC22 [("juryName", "Hugo")]) world0
                  toulouse sessionC22 eq_refl eq_refl eq_refl)).
Defined.

(** ** More on the aggregation *)

Lemma own_set_other o k k' a : k' <> k -> own k' (set o k a) = own k' o.
Proof.
  intros H. induction o as [|[k0 a0] o IH]; simpl.
  - apply String.eqb_neq in H. rewrite String.eqb_sym in H. now rewrite H.
  - destruct (k0 =? k) eqn:E; simpl.
    + apply String.eqb_eq in E. subst k0.
      assert (E' : (k =? k') = false)
        by (apply String.eqb_neq; congruence).
      now rewrite E'.
    + destruct (k0 =? k'); auto.
Qed.

Lemma aggregatesOf_snoc l x :
  aggregatesOf (l ++ [x]) = forEachBody (aggregatesOf l) x.
Proof. unfold aggregatesOf. now rewrite fold_left_app. Qed.

Lemma nan_add_l x : (nan + x)%float = nan.
Proof. apply Prim2SF_inj. rewrite add_spec. reflexivity. Qed.

Lemma nan_add_r x : (x + nan)%float = nan.
Proof.
  apply Prim2SF_inj. rewrite add_spec. change (Prim2SF nan) with S754_nan.
  unfold SF64add, SFadd. now destruct (Prim2SF x).
Qed.

Lemma nan_div_l x : (nan / x)%float = nan.
Proof. apply Prim2SF_inj. rewrite div_spec. reflexivity. Qed.

Lemma score_accumulate c a sub :
  score c (Agg.sums (accumulate a sub))
  = (score c (Agg.sums a) + score c (Submission.scores sub))%float.
Proof. unfold accumulate. simpl. apply score_addScores. Qed.

(** Every submission folded under a key that is not inherited has its
    aggregate under that key, and a NaN it holds has spoiled the sum. *)
Lemma aggregatesOf_nan c l :
  forall sub, In sub l -> inherited (key sub) = false ->
    exists a, own (key sub) (aggregatesOf l) = Some a
              /\ (score c (Submission.scores sub) = nan ->
                  score c (Agg.sums a) = nan).
Proof.
  induction l as [|x l IH] using rev_ind; [intros sub []|].
  intros sub Hsub Hi. rewrite aggregatesOf_snoc.
  set (o := aggregatesOf l) in *.
  assert (Hstep : (exists a', forEachBody o x = set o (key x) a'
                     /\ (score c (Submission.scores x) = nan ->
                         score c (Agg.sums a') = nan)
                     /\ (forall a, own (key x) o = Some a ->
                         score c (Agg.sums a) = nan ->
                         score c (Agg.sums a') = nan))
                  \/ (forEachBody o x = o /\ inherited (key x) = true)).
  { destruct (forEachBody_cases o x) as [[G E]|[[G E]|(agg & Ho & E)]].
    - right. split; [exact E|]. unfold get in G.
      destruct (own (key x) o); [discriminate|].
      now destruct (inherited (key x)).
    - left. exists (accumulate (emptyAgg x) x). split; [exact E|]. split.
      + intros N. now rewrite score_accumulate, N, nan_add_r.
      + unfold get in G. destruct (own (key x) o); [discriminate|]. discriminate.
    - left. exists (accumulate agg x). split; [exact E|]. split.
      + intros N. now rewrite score_accumulate, N, nan_add_r.
      + intros a Ha N. assert (a = agg) by congruence. subst a.
        now rewrite score_accumulate, N, nan_add_l. }
  apply in_app_or in Hsub.
  destruct Hstep as [(a' & E & Hnew & Hold)|[E Hinh]]; rewrite E.
  - destruct (string_dec (key sub) (key x)) as [K|K].
    + rewrite K, own_set_same. exists a'. split; [reflexivity|].
      destruct Hsub as [Hsub|[<-|[]]]; [|exact Hnew].
      intros N. destruct (IH sub Hsub Hi) as (a & Ha & HN).
      rewrite K in Ha. exact (Hold a Ha (HN N)).
    + rewrite (own_set_other _ _ _ _ K).
      destruct Hsub as [Hsub|[<-|[]]]; [now apply IH|congruence].
  - destruct Hsub as [Hsub|[<-|[]]]; [now apply IH|congruence].
Qed.

(** X19. A NaN score spoils the average: if a folded submission, whose key
    is no property name of Object.prototype, holds NaN for a criterion, then
    the row made from the aggregate under its key holds NaN as the average
    of that criterion, whatever the other submissions hold. *)
Theorem nan_spoils_average (rawSubmissions : list Submission.t)
    (sub : Submission.t) (c : criterion) :
  In sub rawSubmissions ->
  inherited (key sub) = false ->
  score c (Submission.scores sub) = nan ->
  exists a,
    own (key sub) (aggregatesOf rawSubmissions) = Some a
    /\ In (average a) (aggregatedOf rawSubmissions)
    /\ score c (Row.avgs (average a)) = nan.
Proof.
  intros Hsub Hi N.
  destruct (aggregatesOf_nan c rawSubmissions sub Hsub Hi) as (a & Ha & HN).
  exists a. split; [exact Ha|]. split.
  - unfold aggregatedOf, Object_values. apply in_map.
    apply own_Some_In in Ha. now apply (in_map snd) in Ha.
  - now rewrite score_average, (HN N), nan_div_l.
Qed.

(** The payload of the test suite has no projectFunctionality: Fabien's
    average for it is NaN, though the other jury gave 3. *)
Lemma nan_spoils_average_witness :
  exists a,
    In (average a) (aggregatedOf [submissionFabien; submissionLea])
    /\ Row.studentName (average a) = "Fabien"
    /\ score ProjectFunctionality (Row.avgs (average a)) = nan.
Proof.
  destruct (nan_spoils_average [submissionFabien; submissionLea] submissionFabien
              ProjectFunctionality (or_introl eq_refl) eq_refl eq_refl)
    as (a & Ha & Hin & N).
  exists a. split; [exact Hin|]. split; [|exact N].
  vm_compute in Ha. injection Ha as <-. reflexivity.
Defined.

Lemma fold_left_invariant_In {A B} (P : A -> Prop) (f : A -> B -> A) l :
  (forall a b, In b l -> P a -> P (f a b)) -> forall a, P a -> P (fold_left f l a).
Proof.
  induction l as [|b l IH]; simpl; [auto|].
  intros Hf a Ha. apply IH; auto.
Qed.

(** Every aggregate records the pair of a submission that was folded. *)
Lemma aggregatesOf_from l :
  Forall (fun e => exists sub, In sub l
                     /\ pairOf sub = (Agg.sessionId (snd e), Agg.studentName (snd e)))
    (aggregatesOf l).
Proof.
  unfold aggregatesOf.
  apply (fold_left_invariant_In
           (Forall (fun e => exists sub, In sub l
                      /\ pairOf sub
                         = (Agg.sessionId (snd e), Agg.studentName (snd e)))));
    [|constructor].
  intros o x Hx Ho.
  destruct (forEachBody_cases o x) as [[_ ->]|[[_ ->]|(agg & Hagg & ->)]].
  - exact Ho.
  - apply Forall_set; [exact Ho|]. exists x. auto.
  - apply Forall_set; [exact Ho|]. apply own_Some_In in Hagg.
    rewrite Forall_forall in Ho. exact (Ho _ Hagg).
Qed.

(** X20. The results hold nothing of another campus: in the answer of the
    results route, every session is a stored session of the caller's campus,
    and every raw submission and every aggregated row bears the id of a
    stored session of the caller's campus; a row bears the sessionId and the
    studentName of one of the raw submissions. *)
Theorem results_confined (req : Request) (w : World) (u : User) :
  session_user req = Some u ->
  exists rawSubmissions aggregated campusSessions,
    resultsWithAverages req w =
      ({| status := 200;
          json := JResults rawSubmissions aggregated campusSessions |}, w)
    /\ (forall s, In s campusSessions ->
          In s (sessions (dbData w)) /\ Session.campus s = user_campus u)
    /\ (forall sub, In sub rawSubmissions ->
          In sub (submissions (dbData w))
          /\ exists s, In s campusSessions
                       /\ Session.id s = Submission.sessionId sub)
    /\ (forall row, In row aggregated ->
          (exists sub, In sub rawSubmissions
                       /\ Submission.sessionId sub = Row.sessionId row
                       /\ Submission.studentName sub = Row.studentName row)
          /\ exists s, In s campusSessions /\ Session.id s = Row.sessionId row).
Proof.
  intros Hu.
  exists (rawSubmissionsOf (user_campus u) (dbData w)),
    (aggregatedOf (rawSubmissionsOf (user_campus u) (dbData w))),
    (campusSessionsOf (user_campus u) (dbData w)).
  split; [now apply resultsWithAverages_answer|].
  assert (S : forall s, In s (campusSessionsOf (user_campus u) (dbData w)) ->
                In s (sessions (dbData w)) /\ Session.campus s = user_campus u).
  { intros s Hs. apply filter_In in Hs. now rewrite String.eqb_eq in Hs. }
  assert (R : forall sub, In sub (rawSubmissionsOf (user_campus u) (dbData w)) ->
                In sub (submissions (dbData w))
                /\ exists s, In s (campusSessionsOf (user_campus u) (dbData w))
                             /\ Session.id s = Submission.sessionId sub).
  { intros sub Hsub. apply rawSubmissionsOf_In in Hsub.
    destruct Hsub as (Hin & s & Hs & Hc & E). split; [exact Hin|].
    exists s. split; [|exact E]. apply filter_In. split; [exact Hs|].
    now apply String.eqb_eq. }
  split; [exact S|]. split; [exact R|].
  intros row Hrow. unfold aggregatedOf, Object_values in Hrow.
  rewrite map_map in Hrow. apply in_map_iff in Hrow.
  destruct Hrow as (e & <- & He).
  pose proof (aggregatesOf_from (rawSubmissionsOf (user_campus u) (dbData w))) as A.
  rewrite Forall_forall in A. destruct (A e He) as (sub & Hsub & [= E1 E2]).
  split.
  - exists sub. simpl. auto.
  - destruct (R sub Hsub) as (_ & s & Hs & E). exists s. simpl.
    split; [exact Hs|congruence].
Qed.

Lemma results_confined_witness :
  exists rawSubmissions aggregated campusSessions,
    resultsWithAverages (request toulouse "" []) world1 =
      ({| status := 200;
          json := JResults rawSubmissions aggregated campusSessions |}, world1)
    /\ forall row, In row aggregated ->
         exists s, In s campusSessions /\ Session.id s = Row.sessionId row.
Proof.
  destruct (results_confined (request toulouse "" []) world1 toulouse eq_refl)
    as (raw & rows & ss & Hr & _ & _ & Hrows).
  exists raw, rows, ss. split; [exact Hr|].
  intros row Hrow. exact (proj2 (Hrows row Hrow)).
Defined.

Lemma sum_counts_set o k a :
  list_sum (map Agg.count (Object_values (set o k a)))
  + match own k o with Some b => Agg.count b | None => 0 end
  = list_sum (map Agg.count (Object_values o)) + Agg.count a.
Proof.
  unfold Object_values. induction o as [|[k' a'] o IH]; simpl; [lia|].
  destruct (k' =? k); simpl; lia.
Qed.

(** X21. Every submission is counted once: the counts of the aggregates add
    up to the number of submissions folded whose key is no property name of
    Object.prototype; to the number of all submissions when no key is. *)
Theorem counts_add_up (rawSubmissions : list Submission.t) :
  list_sum (map Agg.count (Object_values (aggregatesOf rawSubmissions)))
  = List.length (filter (fun sub => negb (inherited (key sub))) rawSubmissions)
  /\ ((forall sub, In sub rawSubmissions -> inherited (key sub) = false) ->
      list_sum (map Agg.count (Object_values (aggregatesOf rawSubmissions)))
      = List.length rawSubmissions).
Proof.
  assert (G : forall l,
             list_sum (map Agg.count (Object_values (aggregatesOf l)))
             = List.length (filter (fun sub => negb (inherited (key sub))) l)).
  { induction l as [|x l IH] using rev_ind; [reflexivity|].
    rewrite aggregatesOf_snoc, filter_app, length_app. simpl.
    destruct (aggregatesOf_keyed l) as [_ K].
    set (o := aggregatesOf l) in *.
    destruct (forEachBody_cases o x) as [[G E]|[[G E]|(agg & Ho & E)]]; rewrite E.
    - unfold get in G. destruct (own (key x) o); [discriminate|].
      destruct (inherited (key x)); [simpl; lia|discriminate].
    - unfold get in G. destruct (own (key x) o) eqn:Ho; [discriminate|].
      destruct (inherited (key x)); [discriminate|].
      pose proof (sum_counts_set o (key x) (accumulate (emptyAgg x) x)) as S.
      rewrite Ho in S. simpl in *. lia.
    - pose proof (sum_counts_set o (key x) (accumulate agg x)) as S.
      rewrite Ho in S. apply own_Some_In in Ho.
      rewrite Forall_forall in K. destruct (K _ Ho) as [_ Hi]. simpl in Hi.
      rewrite Hi. simpl in *. lia. }
  split; [apply G|]. intros H. rewrite G. f_equal.
  apply forallb_filter_id. apply forallb_forall. intros sub Hsub.
  now rewrite (H sub Hsub).
Qed.

(** X22. A campus without a session has empty results: no raw submission
    and no row, whatever the store holds for the other campuses. *)
Theorem results_of_no_session (req : Request) (w : World) (u : User) :
  session_user req = Some u ->
  (forall s, In s (sessions (dbData w)) -> Session.campus s <> user_campus u) ->
  resultsWithAverages req w =
    ({| status := 200; json := JResults [] [] [] |}, w).
Proof.
  intros Hu H. rewrite (resultsWithAverages_answer _ _ _ Hu).
  assert (E : campusSessionsOf (user_campus u) (dbData w) = []).
  { unfold campusSessionsOf.
    induction (sessions (dbData w)) as [|x l IH]; simpl in *; [reflexivity|].
    assert (Hx : (Session.campus x =? user_campus u) = false)
      by (apply String.eqb_neq; auto).
    rewrite Hx. auto. }
  assert (E' : rawSubmissionsOf (user_campus u) (dbData w) = []).
  { unfold rawSubmissionsOf. rewrite E. simpl.
    induction (submissions (dbData w)); simpl; auto. }
  now rewrite E, E'.
Qed.

Lemma results_of_no_session_witness :
  resultsWithAverages (request {| username := "Lille"; user_campus := "Lille" |} "" [])
    world1
  = ({| status := 200; json := JResults [] [] [] |}, world1).
Proof.
  apply (results_of_no_session
           (request {| username := "Lille"; user_campus := "Lille" |} "" [])
           world1 {| username := "Lille"; user_campus := "Lille" |} eq_refl).
  intros s [<-|[<-|[]]]; discriminate.
Defined.

(** * Properties of the browser script *)

Lemma classList_remove_In token e t :
  In t (classList (classList_remove token e)) <-> In t (classList e) /\ t <> token.
Proof.
  unfold classList_remove. simpl. rewrite filter_In.
  now rewrite negb_true_iff, String.eqb_neq.
Qed.

Lemma existsb_token token l :
  existsb (fun t => t =? token) l = true <-> In token l.
Proof.
  rewrite existsb_exists. split.
  - intros (t & Ht & E). apply String.eqb_eq in E. now subst.
  - intros H. exists token. split; [exact H|apply String.eqb_refl].
Qed.

Lemma classList_add_In token e t :
  In t (classList (classList_add token e)) <-> In t (classList e) \/ t = token.
Proof.
  unfold classList_add. simpl.
  destruct (existsb _ (classList e)) eqn:E.
  - apply existsb_token in E. split; [auto|]. intros [H| ->]; auto.
  - rewrite in_app_iff. simpl. intuition congruence.
Qed.

(** X23. The two navigation links: when both are on the page, after
    updateUI each has the class disabled exactly when the data is not that
    of a login, its other classes, its text and its click handler being
    untouched; when one of the two is missing, the other one is left as it
    was, whatever the data. *)
Theorem updateUI_nav (data : Data) (p : Page) :
  (forall f r, navForm p = Some f -> navResults p = Some r ->
     exists f' r',
       navForm (updateUI data p) = Some f'
       /\ navResults (updateUI data p) = Some r'
       /\ (In "disabled" (classList f') <-> loggedIn data = false)
       /\ (In "disabled" (classList r') <-> loggedIn data = false)
       /\ (forall t, t <> "disabled" ->
             (In t (classList f') <-> In t (classList f))
             /\ (In t (classList r') <-> In t (classList r)))
       /\ textContent f' = textContent f /\ onclick f' = onclick f
       /\ textContent r' = textContent r /\ onclick r' = onclick r)
  /\ (navForm p = None \/ navResults p = None ->
      navForm (updateUI data p) = navForm p
      /\ navResults (updateUI data p) = navResults p).
Proof.
  split.
  - intros f r Hf Hr. unfold updateUI. rewrite Hf, Hr.
    destruct (loggedIn data); simpl.
    + exists (classList_remove "disabled" f), (classList_remove "disabled" r).
      repeat split; try rewrite classList_remove_In in *;
        try tauto; try discriminate; try (intros [_ H]; congruence).
    + exists (classList_add "disabled" f), (classList_add "disabled" r).
      repeat split; try rewrite classList_add_In in *; auto; try tauto.
  - unfold updateUI. intros [H|H]; rewrite H; simpl.
    + auto.
    + now destruct (navForm p).
Qed.

(** The form link of the dashboard is disabled; a login enables it and
    leaves its class nav-link. *)
Lemma updateUI_nav_witness :
  exists f' r',
    navForm (updateUI {| loggedIn := true; campus := Some "Toulouse" |} dashboard)
    = Some f'
    /\ navResults (updateUI {| loggedIn := true; campus := Some "Toulouse" |} dashboard)
       = Some r'
    /\ ~ In "disabled" (classList f')
    /\ In "nav-link" (classList f').
Proof.
  destruct (proj1 (updateUI_nav {| loggedIn := true; campus := Some "Toulouse" |}
                     dashboard) linkForm linkResults eq_refl eq_refl)
    as (f' & r' & Hf & Hr & Hd & _ & Hother & _).
  exists f', r'. split; [exact Hf|]. split; [exact Hr|]. split.
  - intros H. apply Hd in H. discriminate H.
  - apply (Hother "nav-link"); [discriminate|]. simpl. auto.
Defined.

Lemma classList_remove_twice token e :
  classList_remove token (classList_remove token e) = classList_remove token e.
Proof.
  unfold classList_remove. simpl. f_equal.
  induction (classList e) as [|t l IH]; simpl; [reflexivity|].
  destruct (t =? token) eqn:E; simpl; [exact IH|]. now rewrite E, IH.
Qed.

Lemma classList_add_twice token e :
  classList_add token (classList_add token e) = classList_add token e.
Proof.
  assert (H : existsb (fun t => t =? token) (classList (classList_add token e))
              = true).
  { apply existsb_token, classList_add_In. auto. }
  unfold classList_add at 1. now rewrite H.
Qed.

(** X24. updateUI is idempotent: called again with the same data it leaves
    the page as the first call made it (the class disabled is not added a
    second time); and since the call records its data, the listener of
    DOMContentLoaded run after it leaves the page as it is too. *)
Theorem updateUI_idempotent (data : Data) (p : Page) :
  updateUI data (updateUI data p) = updateUI data p
  /\ onDOMContentLoaded (updateUI data p) = updateUI data p.
Proof.
  assert (H : updateUI data (updateUI data p) = updateUI data p).
  { unfold updateUI.
    destruct (campusIndicator p) as [i|], (navForm p) as [f|],
      (navResults p) as [r|], (startEvaluationBtn p) as [b|],
      (loggedIn data); simpl;
      rewrite ?classList_remove_twice, ?classList_add_twice; reflexivity. }
  split; [exact H|]. unfold onDOMContentLoaded.
  replace (sessionData (updateUI data p)) with data by reflexivity. exact H.
Qed.
